(** * pyrtlib: radiative-transfer routines and absorption models

    A shallow embedding of [src/pyrap/rte.py] (class [RTEquation]) and of
    [src/pyrtlib/absmodel.py] (classes [N2AbsModel], [H2OAbsModel],
    [O2AbsModel]), with the properties the specification states about them.

    Numbers are real numbers ([R]): every floating-point operation of the
    source is read as the exact operation, and arithmetic never raises (as
    with numpy scalars, where a division by zero is a value and a warning,
    not an exception).  Python's run-time behaviour is kept: sequences are
    indexed from 0, an index outside a sequence raises [IndexError], a name
    that was never bound raises [NameError] or [UnboundLocalError], calling
    a sequence raises [TypeError], and [warnings.warn] appends to a log of
    warnings.  The model selector, a class attribute in the source, is an
    explicit argument; so are the line lists and the table of constants,
    which the sources do not contain. *)

From Stdlib Require Import Reals Lra Lia String List.
From stdpp Require Import base list.

Open Scope R_scope.

(** ** Python run-time model *)

Inductive exn : Type :=
| IndexError
| NameError (name : string)
| UnboundLocalError (name : string)
| TypeError (what : string)
| ValueError (msg : string).

Inductive res (A : Type) : Type :=
| Ok (a : A)
| Raise (e : exn).
Arguments Ok {A} a.
Arguments Raise {A} e.

(** A warning: the text given to [warnings.warn], and the number formatted
    into its [{}] when there is one. *)
Record warning : Type := Warning { text : string; shown : option R }.

(** A run of a routine: how it ended and the warnings it emitted, oldest
    first. *)
Record M (A : Type) : Type := MkM { outcome : res A; warned : list warning }.
Arguments MkM {A} outcome warned.
Arguments outcome {A} m.
Arguments warned {A} m.

Definition ret {A} (a : A) : M A := MkM (Ok a) [].
Definition raise {A} (e : exn) : M A := MkM (Raise e) [].
Definition warn (msg : string) (x : option R) : M unit :=
  MkM (Ok tt) [Warning msg x].

Definition bind {A B} (m : M A) (k : A -> M B) : M B :=
  match outcome m with
  | Ok a => MkM (outcome (k a)) (warned m ++ warned (k a))
  | Raise e => MkM (Raise e) (warned m)
  end.

#[global] Instance M_ret : MRet M := @ret.
#[global] Instance M_bind : MBind M := fun A B k m => bind m k.

(** [l[i]] for a list or a numpy array and a non-negative index. *)
Definition getitem (l : list R) (i : nat) : M R :=
  match l !! i with
  | Some v => ret v
  | None => raise IndexError
  end.

(** [l[i] = v]: Python never extends a sequence through an index. *)
Definition setitem (l : list R) (i : nat) (v : R) : M (list R) :=
  if decide (i < length l)%nat then ret (<[i:=v]> l) else raise IndexError.

(** [np.zeros(a.shape)] for a one-dimensional [a]. *)
Definition zeros_like (a : list R) : list R := replicate (length a) 0.

(** Comparisons as Python booleans. *)
Definition Rltb (x y : R) : bool := if Rlt_dec x y then true else false.
Definition Rleb (x y : R) : bool := if Rle_dec x y then true else false.
Definition Reqb (x y : R) : bool := if Req_dec_T x y then true else false.

(** A boolean used as a number, and a number used as a truth value. *)
Definition b2r (b : bool) : R := if b then 1 else 0.
Definition truthy (x : R) : bool := negb (Reqb x 0).

(** [np.logical_and] and [np.logical_or] on two scalars. *)
Definition logical_and (x y : R) : bool := truthy x && truthy y.
Definition logical_or (x y : R) : bool := truthy x || truthy y.

(** Modelled from the spec: the helper [arange] of [utils] is not among the
    sources; the loops of [rte.py] use [arange(a, b)] as the inclusive range
    [a, a+1, ..., b] over profile levels. *)
Definition arange (a b : nat) : list nat := seq a (b + 1 - a).

(** What one pass through a loop body asks for: go on with a new state, or
    leave the routine with a value. *)
Inductive ctl (S V : Type) : Type :=
| Next (s : S)
| Return (v : V).
Arguments Next {S V} s.
Arguments Return {S V} v.

(** [for i in xs: body], with [return] inside the body. *)
Fixpoint for_each {S V} (xs : list nat) (body : nat -> S -> M (ctl S V))
    (s : S) : M (ctl S V) :=
  match xs with
  | [] => ret (Next s)
  | i :: xs' =>
      c ← body i s;
      match c with
      | Next s' => for_each xs' body s'
      | Return v => ret (Return v)
      end
  end.

(** [for i in xs: body], for a body without [return]. *)
Fixpoint for_range {S} (xs : list nat) (body : nat -> S -> M S) (s : S)
    : M S :=
  match xs with
  | [] => ret s
  | i :: xs' => s' ← body i s; for_range xs' body s'
  end.

(** [a(i)] where [a] is a list or an array: the object is not callable. *)
Definition call_seq (name : string) (a : list R) (i : nat) : M R :=
  raise (TypeError name).

(** Reading a name that the routine never binds and that the module does
    not define ([rte.py] binds [warnings], [np], [constants], [tk2b_mod],
    [arange] and [RTEquation] only). *)
Definition global_name (name : string) : M (list R) :=
  raise (NameError name).

(** Reading a local variable: unbound when no assignment has run. *)
Definition load_local {A} (name : string) (v : option A) : M A :=
  match v with
  | Some a => ret a
  | None => raise (UnboundLocalError name)
  end.

(** ** [rte.py] *)

Module RTEquation.

(** Modelled from the spec: [tk2b_mod] of [utils] is not among the sources;
    the forward modified Planck radiance is [1 / (exp(hvk / T) - 1)]. *)
Definition tk2b_mod (hvk T : R) : R := 1 / (exp (hvk / T) - 1).

(** [bright_xxx]: [Tb = hvk / np.log(1.0 + (1.0 / boft))]. *)
Definition bright_xxx (hvk boft : R) : R := hvk / ln (1.0 + (1.0 / boft)).

Section WithConstants.

(** The table [constants] of [utils], supplied by the caller's side. *)
Variable constants : string -> R.

(** One level of the loop of [refract_xxx]. *)
Definition refract_level (p tk e : list R) (i : nat)
    (s : list R * list R * list R) : M (list R * list R * list R) :=
  let '(wetn, dryn, refindx) := s in
  pi ← getitem p i;
  ei ← getitem e i;
  let pa := pi - ei in
  tki ← getitem tk i;
  let tc := tki - 273.16 in
  let tk2 := tki * tki in
  let tc2 := tc * tc in
  let rza := 1.0 + pa * (5.79e-07 * (1.0 + 0.52 / tki) - 0.00094611 * tc / tk2) in
  let rzw := 1.0 + (1650.0 * (ei / (tki * tk2)))
                   * (1.0 - 0.01317 * tc + 0.000175 * tc2
                      + 1.44e-06 * (tc2 * tc)) in
  wetn ← setitem wetn i ((64.79 * (ei / tki) + 377600.0 * (ei / tk2)) * rzw);
  dryn ← setitem dryn i ((77.6036 * (pa / tki)) * rza);
  di ← getitem dryn i;
  wi ← getitem wetn i;
  refindx ← setitem refindx i (1.0 + (di + wi) * 1e-06);
  ret (wetn, dryn, refindx).

(** [refract_xxx]: the three lists start empty and are written by index;
    the closing conversions read [dryn] into [wetn] and then [wetn] into
    [dryn]. *)
Definition refract_xxx (p tk e : list R) : M (list R * list R * list R) :=
  let nl := length p in
  let wetn : list R := [] in
  let dryn : list R := [] in
  let refindx : list R := [] in
  s ← for_range (arange 1 nl) (refract_level p tk e) (wetn, dryn, refindx);
  let '(wetn, dryn, refindx) := s in
  let wetn := dryn in
  let dryn := wetn in
  ret (dryn, wetn, refindx).

(** The test of [ray_trac_xxx] for an angle close to 90 degrees, as written:
    [angle >= np.logical_and(89, angle) <= 91] is the chain
    [angle >= L and L <= 91] with the boolean [L] compared as 1 or 0. *)
Definition near_vertical (angle : R) : bool :=
  let l1 := logical_and 89 angle in
  let l2 := logical_and (- 91) angle in
  (Rleb (b2r l1) angle && Rleb (b2r l1) 91)
  || (Rleb (b2r l2) angle && Rleb (b2r l2) (- 89)).

(** The test that selects the arithmetic mean of two refractive indices:
    [n == np.logical_or(m, n) == np.logical_or(1.0, m) == 1.0]. *)
Definition same_index (n m : R) : bool :=
  let a := logical_or m n in
  let b := logical_or 1.0 m in
  Reqb n (b2r a) && Bool.eqb a b && Reqb (b2r b) 1.0.

(** The lower boundary carried from layer to layer, with the list [ds]. *)
Record boundary : Type := Boundary {
  b_ds : list R; phil : R; taul : R; rl : R; tanthl : R
}.

(** One layer of the slant-path loop.  The body ends in
    [return np.asarray(ds)]: a layer that goes through leaves the routine. *)
Definition ray_layer (z refindx : list R) (angle z0 re rs theta0 costh0
    sina a0 : R) (i : nat) (s : boundary)
    : M (ctl boundary (option (list R))) :=
  zi ← getitem z i;
  let r := re + zi + z0 in
  ni ← getitem refindx i;
  nm ← getitem refindx (i - 1);
  let refbar :=
    if same_index ni nm then (ni + nm) * 0.5
    else 1.0 + (nm - ni) / ln ((nm - 1.0) / (ni - 1.0)) in
  n1 ← getitem refindx 1;
  let argdth := zi / rs - ((n1 - ni) * costh0 / ni) in
  let argth := 0.5 * (a0 + argdth) / r in
  if Rleb argth 0 then
    _ ← warn "RayTrac_xxx: Ducting at {} degrees" (Some angle);
    ret (Return (Some (b_ds s)))
  else
    let sint := sqrt (r * argth) in
    let theta := 2.0 * asin sint in
    '(theta, dtheta) ←
      (if Rleb (theta - 2.0 * theta0) 0.0 then
         let dendth := 2.0 * (sint + sina) * cos ((theta + theta0) * 0.25) in
         zc ← call_seq "z" z i;
         let sind4 := (0.5 * argdth - zc * argth) / dendth in
         let dtheta := 4.0 * asin sind4 in
         ret (theta0 + dtheta, dtheta)
       else ret (theta, theta - theta0));
    let tanth := tan theta in
    let cthbar := (1.0 / tanth + 1.0 / tanthl s) * 0.5 in
    let dtau := cthbar * (nm - ni) / refbar in
    let tau := taul s + dtau in
    let phi := dtheta + tau in
    zm ← getitem z (i - 1);
    ds ← setitem (b_ds s) i
           (sqrt ((zi - zm) ^ 2 + 4.0 * r * rl s * sin ((phi - phil s) * 0.5) ^ 2));
    ds ← (if negb (Reqb dtau 0.0) then
            let dtaua := Rabs (tau - taul s) in
            di ← getitem ds i;
            setitem ds i (di * (dtaua / (2.0 * sin (dtaua * 0.5))))
          else ret ds);
    ret (Return (Some ds)).

(** The first loop of [ray_trac_xxx]: a bare [return] on an index below 1. *)
Definition check_index (refindx : list R) (i : nat) (_ : unit)
    : M (ctl unit (option (list R))) :=
  ni ← getitem refindx i;
  if Rltb ni 1 then
    _ ← warn "RayTrac_xxx: Negative rafractive index" None;
    ret (Return None)
  else ret (Next tt).

(** One level of the height-difference profile. *)
Definition height_difference (z : list R) (i : nat) (ds : list R)
    : M (list R) :=
  zi ← getitem z i;
  zm ← getitem z (i - 1);
  setitem ds i (zi - zm).

(** [ray_trac_xxx]: [None] is the bare [return] and the end of the body.
    Nothing follows the height-difference branch but the general code. *)
Definition ray_trac_xxx (z refindx : list R) (angle z0 : R)
    : M (option (list R)) :=
  let deg2rad := PI / 180 in
  let re := constants "EarthRadius" in
  let ds : list R := [] in
  let nl := length z in
  chk ← for_each (arange 1 nl) (check_index refindx) tt;
  match chk with
  | Return v => ret v
  | Next _ =>
      ds ← (if near_vertical angle then
              ds ← setitem ds 1 0.0;
              for_range (arange 2 nl) (height_difference z) ds
            else ret ds);
      let theta0 := angle * deg2rad in
      z1 ← getitem z 1;
      let rs := re + z1 + z0 in
      let costh0 := cos theta0 in
      let sina := sin (theta0 * 0.5) in
      let a0 := 2.0 * sina ^ 2 in
      ds ← setitem ds 1 0.0;
      z1 ← getitem z 1;
      let s := Boundary ds 0.0 0.0 (re + z1 + z0) (tan theta0) in
      out ← for_each (arange 2 nl)
              (ray_layer z refindx angle z0 re rs theta0 costh0 sina a0) s;
      match out with
      | Return v => ret v
      | Next _ => ret None
      end
  end.

(** One layer of [exp_int_xxx]: the state is [(sxds, xds)]; a negative end
    point returns the pair as it stands, before the final scaling. *)
Definition exp_int_layer (zeroflg : Z) (x ds : list R) (i : nat)
    (s : R * list R) : M (ctl (R * list R) (R * list R)) :=
  let '(sxds, xds) := s in
  xm ← getitem x (i - 1);
  xi ← getitem x i;
  if Rltb xm 0.0 || Rltb xi 0.0 then
    _ ← warn "Error encountered in ExpInt_xxx.m" None;
    ret (Return (sxds, xds))
  else
    xlayer ←
      (if Rltb (Rabs (xi - xm)) 1e-09 then ret xi
       else if Reqb xm 0.0 || Reqb xi 0.0 then
         if decide (zeroflg = 0%Z) then ret 0.0
         else ret ((xi + xm) * 0.5)
       else
         a ← call_seq "x" x i;
         b ← call_seq "x" x (i - 1);
         c ← call_seq "x" x i;
         d ← call_seq "x" x (i - 1);
         ret ((a - b) / ln (c / d)));
    dsi ← getitem ds i;
    xds ← setitem xds i (xlayer * dsi);
    v ← getitem xds i;
    ret (Next (sxds + v, xds)).

(** [exp_int_xxx]: the pair is [(sxds, xds)], in the order of the
    [return] statements. *)
Definition exp_int_xxx (zeroflg : Z) (x ds : list R) (ibeg iend : nat)
    (factor : R) : M (R * list R) :=
  let sxds := 0.0 in
  let xds := zeros_like ds in
  out ← for_each (arange (ibeg + 1) iend) (exp_int_layer zeroflg x ds)
          (sxds, xds);
  match out with
  | Return v => ret v
  | Next (sxds, xds) =>
      let sxds := sxds * factor in
      ret (sxds, xds)
  end.

(** The results of [planck_xxx], by name. *)
Record planck_result : Type := PlanckResult {
  boftotl : R; boftatm : list R; boftmr : R; tauprof : list R;
  hvk : R; boft : list R; bakgrnd : R
}.

(** One level of the loop of [planck_xxx]. *)
Definition planck_level (hvk : R) (tk taulay : list R) (i : nat)
    (s : list R * list R * list R) : M (list R * list R * list R) :=
  let '(boft, boftatm, tauprof) := s in
  tki ← getitem tk i;
  boft ← setitem boft i (tk2b_mod hvk tki);
  bm ← getitem boft (i - 1);
  bi ← getitem boft i;
  ti ← getitem taulay i;
  let boftlay := (bm + bi * exp (- ti)) / (1.0 + exp (- ti)) in
  tm ← getitem tauprof (i - 1);
  let batmlay := boftlay * exp (- tm) * (1.0 - exp (- ti)) in
  am ← getitem boftatm (i - 1);
  boftatm ← setitem boftatm i (am + batmlay);
  tm ← getitem tauprof (i - 1);
  ti ← getitem taulay i;
  tauprof ← setitem tauprof i (tm + ti);
  ret (boft, boftatm, tauprof).

(** The cosmic background term and the totals, from the profiles. *)
Definition planck_background (hvk Tc expmax : R) (nl : nat)
    (boft boftatm tauprof : list R) : M planck_result :=
  tn ← getitem tauprof nl;
  if Rltb tn expmax then
    let boftbg := tk2b_mod hvk Tc in
    let bakgrnd := boftbg * exp (- tn) in
    an ← getitem boftatm nl;
    let boftotl := bakgrnd + an in
    let boftmr := an / (1.0 - exp (- tn)) in
    ret (PlanckResult boftotl boftatm boftmr tauprof hvk boft bakgrnd)
  else
    let bakgrnd := 0.0 in
    an ← getitem boftatm nl;
    let boftotl := an in
    let boftmr := an in
    ret (PlanckResult boftotl boftatm boftmr tauprof hvk boft bakgrnd).

(** [planck_xxx]: [boft] is written by index and bound nowhere; the first
    store [boft[1] = ...] evaluates its right-hand side and then looks the
    name up. *)
Definition planck_xxx (frq : R) (tk taulay : list R) : M planck_result :=
  let Tc := constants "Tcosmicbkg" in
  let h := constants "planck" in
  let k := constants "boltzmann" in
  let fHz := frq * 1000000000.0 in
  let hvk := fHz * h / k in
  let expmax := 125.0 in
  let nl := length tk in
  let tauprof := zeros_like taulay in
  let boftatm := zeros_like taulay in
  t1 ← getitem tk 1;
  boft ← global_name "boft";
  boft ← setitem boft 1 (tk2b_mod hvk t1);
  s ← for_range (arange 2 nl) (planck_level hvk tk taulay)
        (boft, boftatm, tauprof);
  let '(boft, boftatm, tauprof) := s in
  planck_background hvk Tc expmax nl boft boftatm tauprof.

End WithConstants.

End RTEquation.

(** The warnings of [rte.py], as they appear in the log. *)
Definition negative_index_warning : warning :=
  Warning "RayTrac_xxx: Negative rafractive index" None.

Definition ducting_warning (angle : R) : warning :=
  Warning "RayTrac_xxx: Ducting at {} degrees" (Some angle).

Definition exp_int_warning : warning :=
  Warning "Error encountered in ExpInt_xxx.m" None.

(** A table of constants for the examples below (the routines take the
    table as an argument; nothing proved for all tables depends on it). *)
Definition example_constants (name : string) : R :=
  if String.eqb name "EarthRadius" then 6370.949
  else if String.eqb name "Tcosmicbkg" then 2.736
  else if String.eqb name "planck" then 6.6262e-34
  else if String.eqb name "boltzmann" then 1.380662e-23
  else 0.

(** ** [absmodel.py] *)

(** Complex numbers as numpy has them, for the speed-dependent line shape. *)
Module Cplx.

Definition C : Type := R * R.
Definition mk (re im : R) : C := (re, im).
Definition real (z : C) : R := fst z.
Definition imag (z : C) : R := snd z.
Definition of_real (x : R) : C := (x, 0).
Definition sub (a b : C) : C := (real a - real b, imag a - imag b).
Definition mul (a b : C) : C :=
  (real a * real b - imag a * imag b, real a * imag b + imag a * real b).
Definition div (a b : C) : C :=
  let d := real b * real b + imag b * imag b in
  ((real a * real b + imag a * imag b) / d,
   (imag a * real b - real a * imag b) / d).
Definition scale (k : R) (a : C) : C := (k * real a, k * imag a).
(** The principal square root. *)
Definition sqrt (z : C) : C :=
  let m := R_sqrt.sqrt (real z * real z + imag z * imag z) in
  (R_sqrt.sqrt ((m + real z) / 2),
   (if Rle_dec 0 (imag z) then 1 else - 1) * R_sqrt.sqrt ((m - real z) / 2)).

End Cplx.

Module AbsModel.

(** [model in [...]] on the class attribute [model]. *)
Definition model_in (model : string) (names : list string) : bool :=
  existsb (String.eqb model) names.

(** [model.startswith((a, b))]. *)
Definition startswith (model : string) (prefixes : list string) : bool :=
  existsb (fun p => String.prefix p model) prefixes.

(** [x ** y] with a floating-point exponent, for a positive base. *)
Definition pypow (x y : R) : R := Rpower x y.

Definition db2np : R := ln 10.0 * 0.1.

(** [N2AbsModel.n2_absorption]. *)
Definition n2_absorption (model : string) (t p f : R) : M R :=
  let th := 300.0 / t in
  let fdepen := 0.5 + 0.5 / (1.0 + (f / 450.0) ^ 2) in
  '(l, m, n, fdepen) ←
    (if model_in model ["rose16"; "rose17"; "rose18"; "rose19"; "rose19sd"]%string
     then ret (6.5e-14, 3.6, 1.34, fdepen)
     else if model_in model ["rose20"; "rose20sd"]%string
     then ret (9.95e-14, 3.22, 1, fdepen)
     else if String.eqb model "rose03"
     then ret (6.5e-14, 3.6, 1.29, fdepen)
     else if model_in model ["rose98"]%string
     then ret (6.4e-14, 3.55, 1, 1)
     else raise (ValueError
       ("[AbsN2] No model available with this name: " ++ model
        ++ " . Sorry...")%string));
  let bf := l * fdepen * p * p * f * f * pypow th m in
  let abs_n2 := n * bf in
  ret abs_n2.

(** The water-vapour line list [h2oll]. *)
Record h2o_lines : Type := H2OLines {
  reftcon : R; reftline : R; cf : R; xcf : R; cs : R; xcs : R;
  d2air : R; d2self : R;
  fl : list R; s1 : list R; b2 : list R;
  w0 : list R; hx : list R; w0s : list R; xs : list R;
  w2 : list R; w2s : list R; sr : list R;
  sh : list R; xh : list R; shs : list R; xhs : list R;
  aair : list R; aself : list R
}.

(** The oxygen line list [o2ll]. *)
Record o2_lines : Type := O2Lines {
  ox : R; wb300 : R;
  f : list R; s300 : list R; be : list R; w300 : list R;
  y300 : list R; v : list R;
  y0 : list R; y1 : list R; dnu0 : list R; dnu1 : list R;
  g0 : list R; g1 : list R
}.

Section WaterVapour.

(** [dcerror] of [utils], the scaled complex error function. *)
Variable dcerror : R -> R -> Cplx.C.
Variable h2oll : h2o_lines.
Variable model : string.

(** One side [j] of one line in the speed-dependent branch. *)
Definition sd_side (i j : nat) (width0 width2 base wsq pda pvap dfj : R)
    : R :=
  if Rltb 0 width2 && Nat.eqb j 0 && Rltb (Rabs dfj) (10 * width0) then
    let xc := Cplx.div (Cplx.mk (width0 - 1.5 * width2) dfj)
                (Cplx.of_real width2) in
    let delta2 :=
      if Nat.eqb i 1 then d2air h2oll * pda + d2self h2oll * pvap
      else 0.0 in
    let xc :=
      if String.eqb model "rose20sd" then
        Cplx.div (Cplx.mk (width0 - 1.5 * width2) (dfj + 1.5 * delta2))
          (Cplx.mk width2 (- delta2))
      else xc in
    let xrt := Cplx.sqrt xc in
    let pxw := Cplx.scale 1.77245385090551603
                 (Cplx.mul xrt (dcerror (- Cplx.imag xrt) (Cplx.real xrt))) in
    let sd := Cplx.div (Cplx.scale 2.0 (Cplx.sub (Cplx.of_real 1.0) pxw))
                (if negb (String.eqb model "rose20sd")
                 then Cplx.of_real width2
                 else Cplx.mk width2 (- delta2)) in
    Cplx.real sd - base
  else if Rltb (Rabs dfj) 750.0 then width0 / (dfj ^ 2 + wsq) - base
  else 0.

(** The line of index [i] in the branch of the models whose name starts
    with [rose19sd] or [rose20sd]. *)
Definition h2o_line_sd (f pda pvap ti tiln ti2 : R) (i : nat) (summ : R)
    : M R :=
  w0i ← getitem (w0 h2oll) i;
  xi ← getitem (hx h2oll) i;
  w0si ← getitem (w0s h2oll) i;
  xsi ← getitem (xs h2oll) i;
  let width0 := w0i * pda * pypow ti xi + w0si * pvap * pypow ti xsi in
  w2i ← getitem (w2 h2oll) i;
  w2si ← getitem (w2s h2oll) i;
  let width2 := w2i * pda + w2si * pvap in
  shi ← getitem (sh h2oll) i;
  aairi ← getitem (aair h2oll) i;
  xhi ← getitem (xh h2oll) i;
  let shiftf := shi * pda * (1 - aairi * tiln) * pypow ti xhi in
  shsi ← getitem (shs h2oll) i;
  aselfi ← getitem (aself h2oll) i;
  xhsi ← getitem (xhs h2oll) i;
  let shifts := shsi * pvap * (1 - aselfi * tiln) * pypow ti xhsi in
  let shift := shiftf + shifts in
  let wsq := width0 ^ 2 in
  s1i ← getitem (s1 h2oll) i;
  b2i ← getitem (b2 h2oll) i;
  let s := s1i * ti2 * exp (b2i * (1 - ti)) in
  fli ← getitem (fl h2oll) i;
  let df0 := f - fli - shift in
  let df1 := f + fli + shift in
  let base := width0 / (562500.0 + wsq) in
  let res := 0.0 in
  let res := res + sd_side i 0 width0 width2 base wsq pda pvap df0 in
  let res := res + sd_side i 1 width0 width2 base wsq pda pvap df1 in
  ret (summ + s * res * (f / fli) ^ 2).

(** One side of a Lorentz line, with the cut-off at 750; [closed] tells
    whether the bound itself is inside ([<=]) or not ([<]). *)
Definition lorentz_side (closed : bool) (width base wsq dfj : R) : R :=
  if (if closed then Rleb (Rabs dfj) 750.0 else Rltb (Rabs dfj) 750.0)
  then width / (dfj ^ 2 + wsq) - base
  else 0.

(** The line of index [i] for [rose16], [rose03], [rose17], [rose98]. *)
Definition h2o_line_old (f pda pvap ti ti2 : R) (i : nat) (summ : R) : M R :=
  w0i ← getitem (w0 h2oll) i;
  xi ← getitem (hx h2oll) i;
  let widthf := w0i * pda * pypow ti xi in
  w0si ← getitem (w0s h2oll) i;
  xsi ← getitem (xs h2oll) i;
  let widths := w0si * pvap * pypow ti xsi in
  let width := widthf + widths in
  shift ←
    (if String.eqb model "rose98" then ret 0.0
     else
       sri ← getitem (sr h2oll) i;
       ret (sri * (if String.eqb model "rose03" then width else widthf)));
  let wsq := width ^ 2 in
  s1i ← getitem (s1 h2oll) i;
  b2i ← getitem (b2 h2oll) i;
  let s := s1i * ti2 * exp (b2i * (1.0 - ti)) in
  fli ← getitem (fl h2oll) i;
  let df0 := f - fli - shift in
  let df1 := f + fli + shift in
  let base := width / (562500.0 + wsq) in
  let res := 0.0 in
  let res := res + lorentz_side true width base wsq df0 in
  let res := res + lorentz_side true width base wsq df1 in
  ret (summ + s * res * (f / fli) ^ 2).

(** The line of index [i] for [rose19], [rose20] ([logshift]) and for
    [rose18] (no logarithmic factor in the shift). *)
Definition h2o_line_new (logshift : bool) (f pda pvap ti tiln ti2 : R)
    (i : nat) (summ : R) : M R :=
  w0i ← getitem (w0 h2oll) i;
  xi ← getitem (hx h2oll) i;
  let widthf := w0i * pda * pypow ti xi in
  w0si ← getitem (w0s h2oll) i;
  xsi ← getitem (xs h2oll) i;
  let widths := w0si * pvap * pypow ti xsi in
  let width := widthf + widths in
  shi ← getitem (sh h2oll) i;
  shiftf ←
    (if logshift then
       aairi ← getitem (aair h2oll) i;
       xhi ← getitem (xh h2oll) i;
       ret (shi * pda * (1 - aairi * tiln) * pypow ti xhi)
     else
       xhi ← getitem (xh h2oll) i;
       ret (shi * pda * pypow ti xhi));
  shsi ← getitem (shs h2oll) i;
  shifts ←
    (if logshift then
       aselfi ← getitem (aself h2oll) i;
       xhsi ← getitem (xhs h2oll) i;
       ret (shsi * pvap * (1 - aselfi * tiln) * pypow ti xhsi)
     else
       xhsi ← getitem (xhs h2oll) i;
       ret (shsi * pvap * pypow ti xhsi));
  let shift := shiftf + shifts in
  let wsq := width ^ 2 in
  s1i ← getitem (s1 h2oll) i;
  b2i ← getitem (b2 h2oll) i;
  let s := s1i * ti2 * exp (b2i * (1 - ti)) in
  fli ← getitem (fl h2oll) i;
  let df0 := f - fli - shift in
  let df1 := f + fli + shift in
  let base := width / (562500.0 + wsq) in
  let res := 0.0 in
  let res := res + lorentz_side false width base wsq df0 in
  let res := res + lorentz_side false width base wsq df1 in
  ret (summ + s * res * (f / fli) ^ 2).

(** [H2OAbsModel.h2o_rosen19_sd]: [None] is the bare [return]. *)
Definition h2o_rosen19_sd (pdrykpa vx ekpa frq : R) : M (option (R * R)) :=
  let rvap := (0.01 * 8.31451) / 18.01528 in
  let factor := 0.182 * frq in
  let t := 300.0 / vx in
  let p := (pdrykpa + ekpa) * 10.0 in
  let rho := ekpa * 10.0 / (rvap * t) in
  let f := frq in
  if Rleb (b2r (truthy rho)) 0.0 then ret None
  else
    let pvap := (rho * t) / 216.68 in
    let pvap :=
      if model_in model ["rose03"; "rose16"; "rose17"; "rose98"]%string
      then (rho * t) / 217.0 else pvap in
    let pda := p - pvap in
    let den :=
      if model_in model ["rose03"; "rose16"; "rose98"]%string
      then 3.335e+16 * rho else 3.344e+16 * rho in
    let ti := reftcon h2oll / t in
    let con :=
      if model_in model ["rose03"; "rose98"]%string
      then (5.43e-10 * pda * ti ^ 3 + 1.8e-08 * pvap * pypow ti 7.5)
           * pvap * f * f
      else (cf h2oll * pda * pypow ti (xcf h2oll)
            + cs h2oll * pvap * pypow ti (xcs h2oll)) * pvap * f * f in
    let nlines := length (fl h2oll) in
    let ti := reftline h2oll / t in
    summ ←
      (if startswith model ["rose19sd"; "rose20sd"]%string then
         let tiln := ln ti in
         let ti2 := exp (2.5 * tiln) in
         r ← for_range (seq 0 nlines) (h2o_line_sd f pda pvap ti tiln ti2) 0.0;
         ret (Some r)
       else if model_in model ["rose16"; "rose03"; "rose17"; "rose98"]%string
       then
         let ti2 := pypow ti 2.5 in
         r ← for_range (seq 0 nlines) (h2o_line_old f pda pvap ti ti2) 0.0;
         ret (Some r)
       else if model_in model ["rose19"; "rose20"]%string then
         let tiln := ln ti in
         let ti2 := exp (2.5 * tiln) in
         r ← for_range (seq 0 nlines)
               (h2o_line_new true f pda pvap ti tiln ti2) 0.0;
         ret (Some r)
       else if String.eqb model "rose18" then
         let ti2 := pypow ti 2.5 in
         r ← for_range (seq 0 nlines)
               (h2o_line_new false f pda pvap ti 0 ti2) 0.0;
         ret (Some r)
       else ret None);
    summ ← load_local "summ" summ;
    let npp := (3.183e-05 * den * summ / db2np) / factor in
    let ncpp := (con / db2np) / factor in
    ret (Some (npp, ncpp)).

End WaterVapour.

Section Oxygen.

Variable o2ll : o2_lines.
Variable model : string.

(** The line of index [k] for [rose03] and [rose98]: the first line takes
    its width from [dens]. *)
Definition o2_line_9803 (freq pres b th1 den : R) (dens : option R)
    (k : nat) (summ : R) : M R :=
  df ←
    (if Nat.eqb k 0 then
       w ← getitem (w300 o2ll) 0;
       dens ← load_local "dens" dens;
       ret (w * dens)
     else
       w ← getitem (w300 o2ll) k;
       ret (w * den));
  y300k ← getitem (y300 o2ll) k;
  vk ← getitem (v o2ll) k;
  let y := 0.001 * pres * b * (y300k + vk * th1) in
  s300k ← getitem (s300 o2ll) k;
  bek ← getitem (be o2ll) k;
  let strr := s300k * exp (- bek * th1) in
  fk ← getitem (f o2ll) k;
  let sf1 := (df + (freq - fk) * y) / ((freq - fk) ^ 2 + df * df) in
  let sf2 := (df - (freq + fk) * y) / ((freq + fk) ^ 2 + df * df) in
  ret (summ + strr * (sf1 + sf2) * (freq / fk) ^ 2).

(** The line of index [k] for [rose17] and [rose18]. *)
Definition o2_line_1718 (freq th1 den : R) (k : nat) (summ : R) : M R :=
  w ← getitem (w300 o2ll) k;
  let df := w * den in
  fcen ← getitem (f o2ll) k;
  y300k ← getitem (y300 o2ll) k;
  vk ← getitem (v o2ll) k;
  let y := den * (y300k + vk * th1) in
  s300k ← getitem (s300 o2ll) k;
  bek ← getitem (be o2ll) k;
  let strr := s300k * exp (- bek * th1) in
  let sf1 := (df + (freq - fcen) * y) / ((freq - fcen) ^ 2 + df * df) in
  let sf2 := (df - (freq + fcen) * y) / ((freq + fcen) ^ 2 + df * df) in
  ret (summ + strr * (sf1 + sf2) * (freq / fcen) ^ 2).

(** The line of index [k] in the [else] branch: second-order mixing. *)
Definition o2_line_else (freq th1 den pe2 : R) (k : nat) (summ : R) : M R :=
  w ← getitem (w300 o2ll) k;
  let df := w * den in
  y0k ← getitem (y0 o2ll) k;
  y1k ← getitem (y1 o2ll) k;
  let y := den * (y0k + y1k * th1) in
  dnu0k ← getitem (dnu0 o2ll) k;
  dnu1k ← getitem (dnu1 o2ll) k;
  let dnu := pe2 * (dnu0k + dnu1k * th1) in
  s300k ← getitem (s300 o2ll) k;
  bek ← getitem (be o2ll) k;
  let strr := s300k * exp (- bek * th1) in
  fk ← getitem (f o2ll) k;
  let del1 := freq - fk - dnu in
  let del2 := freq + fk + dnu in
  g0k ← getitem (g0 o2ll) k;
  g1k ← getitem (g1 o2ll) k;
  let gfac := 1 + pe2 * (g0k + g1k * th1) in
  let d1 := del1 * del1 + df * df in
  let d2 := del2 * del2 + df * df in
  let sf1 := (df * gfac + del1 * y) / d1 in
  let sf2 := (df * gfac - del2 * y) / d2 in
  ret (summ + strr * (sf1 + sf2) * (freq / fk) ^ 2).

(** The sum over the lines, by the three-way dispatch on the model: any
    name outside the two lists takes the [else] branch. *)
Definition o2_line_sum (freq pres b th1 den pe2 : R) (dens : option R)
    (summ : R) : M R :=
  let nlines := length (f o2ll) in
  if model_in model ["rose03"; "rose98"]%string then
    for_range (seq 0 nlines) (o2_line_9803 freq pres b th1 den dens) summ
  else if model_in model ["rose17"; "rose18"]%string then
    for_range (seq 0 nlines) (o2_line_1718 freq th1 den) summ
  else
    for_range (seq 0 nlines) (o2_line_else freq th1 den pe2) summ.

(** The resonant total from the line sum: scaling, then the clamp that
    every model but [rose98] applies. *)
Definition o2_clamp (summ presda th : R) : R :=
  let o2abs := 1.6097e+11 * summ * presda * th ^ 3 in
  let o2abs :=
    if model_in model ["rose03"; "rose98"]%string
    then 5.034e+11 * summ * presda * th ^ 3 / 3.14159 else o2abs in
  let o2abs :=
    if negb (String.eqb model "rose98") then Rmax o2abs 0.0 else o2abs in
  let o2abs :=
    if model_in model ["rose20"; "rose20sd"]%string
    then 1.004 * Rmax o2abs 0.0 else o2abs in
  o2abs.

(** [O2AbsModel.o2abs_rosen19]. *)
Definition o2abs_rosen19 (pdrykpa vx ekpa frq : R) : M (R * R) :=
  let rvap := (0.01 * 8.314510) / 18.01528 in
  let factor := 0.182 * frq in
  let temp := 300.0 / vx in
  let pres := (pdrykpa + ekpa) * 10.0 in
  let vapden := (ekpa * 10.0) / (rvap * temp) in
  let freq := frq in
  let th := 300.0 / temp in
  let th1 := th - 1.0 in
  let b := pypow th (ox o2ll) in
  let preswv := vapden * temp / 216.68 in
  let preswv :=
    if model_in model ["rose03"; "rose16"; "rose17"; "rose18"; "rose98"]%string
    then vapden * temp / 217.0 else preswv in
  let presda := pres - preswv in
  let den := 0.001 * (presda * b + 1.2 * preswv * th) in
  let den :=
    if model_in model ["rose03"; "rose16"; "rose98"]%string
    then 0.001 * (presda * b + 1.1 * preswv * th) else den in
  let dens : option R := None in
  let dens :=
    if String.eqb model "rose03"
    then Some (0.001 * (presda * pypow th 0.9 + 1.1 * preswv * th))
    else dens in
  let dens :=
    if String.eqb model "rose98"
    then Some (0.001 * (presda + 1.1 * preswv) * th) else dens in
  let dfnr := wb300 o2ll * den in
  let pe2 := den * den in
  let summ := 1.584e-17 * freq * freq * dfnr
              / (th * (freq * freq + dfnr * dfnr)) in
  let summ :=
    if model_in model ["rose03"; "rose16"; "rose17"; "rose18"; "rose98"]%string
    then 0.0 else summ in
  summ ← o2_line_sum freq pres b th1 den pe2 dens summ;
  let o2abs := o2_clamp summ presda th in
  let ncpp := 1.584e-17 * freq * freq * dfnr
              / (th * (freq * freq + dfnr * dfnr)) in
  let ncpp :=
    if model_in model ["rose03"; "rose98"]%string then
      let ncpp := 1.6e-17 * freq * freq * dfnr
                  / (th * (freq * freq + dfnr * dfnr)) in
      ncpp * (5.034e+11 * presda * th ^ 3 / 3.14159)
    else ncpp * (1.6097e11 * presda * th ^ 3) in
  ncpp ←
    (if model_in model ["rose03"; "rose16"; "rose17"; "rose18"; "rose98"]%string
     then
       n2 ← n2_absorption model temp pres freq;
       ret (ncpp + n2)
     else ret ncpp);
  let npp := (o2abs / db2np) / factor in
  let ncpp := (ncpp / db2np) / factor in
  ret (npp, ncpp).

(** The resonant total of [o2abs_rosen19] as it stands after the line
    summation and the scaling of lines 627-629, before the clamp: the
    routine up to there, returning [o2abs]. *)
Definition o2abs_unclamped (pdrykpa vx ekpa frq : R) : M R :=
  let rvap := (0.01 * 8.314510) / 18.01528 in
  let temp := 300.0 / vx in
  let pres := (pdrykpa + ekpa) * 10.0 in
  let vapden := (ekpa * 10.0) / (rvap * temp) in
  let freq := frq in
  let th := 300.0 / temp in
  let th1 := th - 1.0 in
  let b := pypow th (ox o2ll) in
  let preswv := vapden * temp / 216.68 in
  let preswv :=
    if model_in model ["rose03"; "rose16"; "rose17"; "rose18"; "rose98"]%string
    then vapden * temp / 217.0 else preswv in
  let presda := pres - preswv in
  let den := 0.001 * (presda * b + 1.2 * preswv * th) in
  let den :=
    if model_in model ["rose03"; "rose16"; "rose98"]%string
    then 0.001 * (presda * b + 1.1 * preswv * th) else den in
  let dens : option R := None in
  let dens :=
    if String.eqb model "rose03"
    then Some (0.001 * (presda * pypow th 0.9 + 1.1 * preswv * th))
    else dens in
  let dens :=
    if String.eqb model "rose98"
    then Some (0.001 * (presda + 1.1 * preswv) * th) else dens in
  let dfnr := wb300 o2ll * den in
  let pe2 := den * den in
  let summ := 1.584e-17 * freq * freq * dfnr
              / (th * (freq * freq + dfnr * dfnr)) in
  let summ :=
    if model_in model ["rose03"; "rose16"; "rose17"; "rose18"; "rose98"]%string
    then 0.0 else summ in
  summ ← o2_line_sum freq pres b th1 den pe2 dens summ;
  let o2abs := 1.6097e+11 * summ * presda * th ^ 3 in
  let o2abs :=
    if model_in model ["rose03"; "rose98"]%string
    then 5.034e+11 * summ * presda * th ^ 3 / 3.14159 else o2abs in
  ret o2abs.

End Oxygen.

End AbsModel.

(** The columns of a line list are indexed in lock-step by the line
    index: each is as long as the column of line frequencies. *)
Definition o2_columns_ok (ll : AbsModel.o2_lines) : Prop :=
  Forall (fun c : list R => length c = length (AbsModel.f ll))
    [AbsModel.s300 ll; AbsModel.be ll; AbsModel.w300 ll; AbsModel.y300 ll;
     AbsModel.v ll; AbsModel.y0 ll; AbsModel.y1 ll; AbsModel.dnu0 ll;
     AbsModel.dnu1 ll; AbsModel.g0 ll; AbsModel.g1 ll].

Definition h2o_columns_ok (ll : AbsModel.h2o_lines) : Prop :=
  Forall (fun c : list R => length c = length (AbsModel.fl ll))
    [AbsModel.s1 ll; AbsModel.b2 ll; AbsModel.w0 ll; AbsModel.hx ll;
     AbsModel.w0s ll; AbsModel.xs ll; AbsModel.w2 ll; AbsModel.w2s ll;
     AbsModel.sr ll; AbsModel.sh ll; AbsModel.xh ll; AbsModel.shs ll;
     AbsModel.xhs ll; AbsModel.aair ll; AbsModel.aself ll].

(** Line lists for the examples: one oxygen line at 60 GHz with a mixing
    coefficient of 1, and one water-vapour line at 22.235 GHz. *)
Definition o2_one_line : AbsModel.o2_lines :=
  AbsModel.O2Lines 0.0 0.56 [60.0] [1.0] [0.0] [1.0] [1.0] [0.0]
    [1.0] [0.0] [0.0] [0.0] [0.0] [0.0].

Definition h2o_one_line : AbsModel.h2o_lines :=
  AbsModel.H2OLines 300.0 296.0 5.9e-10 3.0 1.4e-08 7.5 0.0 0.0
    [22.235] [1.3e-14] [2.144] [2.8e-03] [0.76] [1.3e-02] [1.0]
    [0.0] [0.0] [0.0] [0.0] [0.0] [0.0] [0.0] [0.0] [0.0].

(** A stand-in for [dcerror] in the examples, whose lines never enter the
    speed-dependent shape. *)
Definition no_dcerror (x y : R) : Cplx.C := (0, 0).

(** The model names that the routines of [absmodel.py] test for. *)
Definition recognized : list string :=
  ["rose98"; "rose03"; "rose16"; "rose17"; "rose18"; "rose19"; "rose19sd";
   "rose20"; "rose20sd"]%string.

(** ** The rest of [rte.py] *)

(** [l[i]] for a list of level numbers. *)
Definition getlevel (l : list nat) (i : nat) : M nat :=
  match l !! i with
  | Some v => ret v
  | None => raise IndexError
  end.

(** Calling or reading a name that is bound nowhere. *)
Definition unbound {A} (name : string) : M A := raise (NameError name).

(** An elementwise operation of numpy on two one-dimensional arrays: equal
    lengths pair up, a length of 1 is stretched, anything else is refused. *)
Definition broadcast (op : R -> R -> R) (a b : list R) : M (list R) :=
  if decide (length a = length b) then ret (zip_with op a b)
  else match a, b with
       | [x], _ => ret (op x <$> b)
       | _, [y] => ret ((fun x => op x y) <$> a)
       | _, _ =>
           raise (ValueError "operands could not be broadcast together")
       end.

(** The sum of the entries of an array. *)
Definition Rsum (l : list R) : R := foldr Rplus 0 l.

Module RTEquationRest.

Definition log10 (x : R) : R := ln x / ln 10.

(** [10 ** x] and [10.0 ** x]. *)
Definition pow10 (x : R) : R := Rpower 10 x.

(** The logarithm of the saturation pressure over water at one
    temperature (Goff-Gratch), as [vapor_xxx] writes it. *)
Definition log_es_water (tk : R) : R :=
  let y := 373.16 / tk in
  -7.90298 * (y - 1.0) + 5.02808 * log10 y
  - 1.3816e-07 * (pow10 (11.344 * (1.0 - (1.0 / y))) - 1.0)
  + 0.0081328 * (pow10 (-3.49149 * (y - 1.0)) - 1.0)
  + log10 1013.246.

(** The warnings of the cloud routines. *)
Definition cld_tmr_warning : warning :=
  Warning "from CldTmr_xxx: absorption too large to exponentiate for tmr of lowest cloud layer" None.

Section WithConstants.

Variable constants : string -> R.

(** [vapor_xxx] on one-dimensional arrays.  With [ice == 1] the branch
    starts with [find(tk < 263.16)], a name bound nowhere, and goes on with
    the call [tk(indx)]; nothing after these two can run. *)
Definition vapor_xxx (tk rh : list R) (ice : Z) : M (list R * list R) :=
  let rvap := constants "Rwatvap" in
  let rvap := rvap * 1e-05 in
  let es := log_es_water <$> tk in
  es ← (if decide (ice = 1%Z) then
          indx ← unbound (A:=list R) "find";
          y ← call_seq "tk" tk 0;
          ret es
        else ret es);
  let es := pow10 <$> es in
  e ← broadcast Rmult rh es;
  rho ← broadcast Rdiv e (Rmult rvap <$> tk);
  ret (e, rho).

(** [cld_tmr_xxx]: [None] is the bare [return]. *)
Definition cld_tmr_xxx (ibase itop : nat) (hvk : R) (tauprof boftatm : list R)
    : M (option R) :=
  let expmax := 125.0 in
  tb ← getitem tauprof ibase;
  if Rltb expmax tb then
    _ ← warn "from CldTmr_xxx: absorption too large to exponentiate for tmr of lowest cloud layer" None;
    ret None
  else
    at_ ← getitem boftatm itop;
    ab ← getitem boftatm ibase;
    let batmcld := at_ - ab in
    tt_ ← getitem tauprof itop;
    tb ← getitem tauprof ibase;
    let taucld := tt_ - tb in
    boftcld ←
      (if Rltb expmax taucld then
         tb ← getitem tauprof ibase;
         ret (batmcld * exp tb)
       else
         tb ← getitem tauprof ibase;
         ret (batmcld * exp tb / (1.0 - exp (- taucld))));
    let tmrcld := RTEquation.bright_xxx hvk boftcld in
    ret (Some tmrcld).

(** One layer of one cloud in [cld_int_xxx]. *)
Definition cld_int_layer (dencld ds : list R) (i : nat) (scld : R) : M R :=
  dsi ← getitem ds i;
  di ← getitem dencld i;
  dm ← getitem dencld (i - 1);
  ret (scld + dsi * (0.5 * (di + dm))).

(** One cloud of [cld_int_xxx]. *)
Definition cld_int_cloud (dencld ds : list R) (lbase ltop : list nat)
    (l : nat) (scld : R) : M R :=
  lb ← getlevel lbase l;
  lt ← getlevel ltop l;
  for_range (arange (lb + 1) lt) (cld_int_layer dencld ds) scld.

(** [cld_int_xxx]. *)
Definition cld_int_xxx (dencld ds : list R) (lbase ltop : list nat) : M R :=
  let ncld := length lbase in
  let scld := 0.0 in
  scld ← for_range (arange 1 ncld) (cld_int_cloud dencld ds lbase ltop) scld;
  let scld := scld * 0.1 in
  ret scld.

(** [ab_liq]: the complex permittivity, then the imaginary part of
    [(eps - 1) / (eps + 2)]. *)
Definition cadd (a b : Cplx.C) : Cplx.C :=
  (Cplx.real a + Cplx.real b, Cplx.imag a + Cplx.imag b).

Definition liquid_eps (freq temp : R) : Cplx.C :=
  let theta1 := 1.0 - 300.0 / temp in
  let eps0 := 77.66 - 103.3 * theta1 in
  let eps1 := 0.0671 * eps0 in
  let eps2 := 3.52 in
  let fp := (316.0 * theta1 + 146.4) * theta1 + 20.2 in
  let fs := 39.8 * fp in
  cadd (cadd (Cplx.div (Cplx.of_real (eps0 - eps1)) (Cplx.mk 1.0 (freq / fp)))
             (Cplx.div (Cplx.of_real (eps1 - eps2)) (Cplx.mk 1.0 (freq / fs))))
       (Cplx.of_real eps2).

Definition ab_liq (water freq temp : R) : R :=
  if Rleb water 0 then 0
  else
    let eps := liquid_eps freq temp in
    let re := Cplx.div (Cplx.sub eps (Cplx.of_real 1.0))
                (cadd eps (Cplx.of_real 2.0)) in
    -0.06286 * Cplx.imag re * freq * water.

(** One level of [cld_abs_xxx]; the state is [(aliq, aice)]. *)
Definition cld_abs_level (tk denl deni : list R) (frq wave db2np : R)
    (i : nat) (s : list R * list R) : M (list R * list R) :=
  let '(aliq, aice) := s in
  dl ← getitem denl i;
  aliq ← (if Rltb 0 dl then
            dl ← getitem denl i;
            tki ← getitem tk i;
            setitem aliq i (ab_liq dl frq tki)
          else ret aliq);
  di ← getitem deni i;
  aice ← (if Rltb 0 di then
            di ← getitem deni i;
            aice ← setitem aice i (8.18645 / wave * di * 0.000959553);
            ai ← getitem aice i;
            setitem aice i (ai * db2np)
          else ret aice);
  ret (aliq, aice).

(** [cld_abs_xxx]. *)
Definition cld_abs_xxx (tk denl deni : list R) (frq : R)
    : M (list R * list R) :=
  let nl := length tk in
  let c := constants "light" * 100 in
  let ghz2hz := 1000000000.0 in
  let db2np := ln 10.0 * 0.1 in
  let wave := c / (frq * ghz2hz) in
  let aliq := zeros_like denl in
  let aice := zeros_like denl in
  for_range (arange 1 nl) (cld_abs_level tk denl deni frq wave db2np)
    (aliq, aice).

(** One level of [clr_abs_xxx]: [h2o_rosen03_xxx] and [o2n2_rosen03_xxx]
    are bound nowhere. *)
Definition clr_abs_level (p tk e : list R) (frq factor db2np : R)
    (i : nat) (s : list R * list R) : M (list R * list R) :=
  let '(awet, adry) := s in
  tki ← getitem tk i;
  let v := 300.0 / tki in
  ei ← getitem e i;
  let ekpa := ei / 10.0 in
  pi ← getitem p i;
  let pdrykpa := pi / 10.0 - ekpa in
  '(npp, ncpp) ← unbound (A:=R * R) "h2o_rosen03_xxx";
  awet ← setitem awet i (factor * (npp + ncpp) * db2np);
  '(npp, ncpp) ← unbound (A:=R * R) "o2n2_rosen03_xxx";
  adry ← setitem adry i (factor * (npp + ncpp) * db2np);
  ret (awet, adry).

(** [clr_abs_xxx]. *)
Definition clr_abs_xxx (p tk e : list R) (frq : R) : M (list R * list R) :=
  let nl := length p in
  let awet := zeros_like p in
  let adry := zeros_like p in
  let factor := 0.182 * frq in
  let db2np := ln 10.0 * 0.1 in
  for_range (arange 1 nl) (clr_abs_level p tk e frq factor db2np)
    (awet, adry).

End WithConstants.

End RTEquationRest.

(** ** The rest of [absmodel.py] *)

Module AbsModelRest.

(** What a caller may hand to the setter of [AbsModel.model]: a string, or
    an object of any other type. *)
Inductive pyvalue : Type :=
| PyStr (s : string)
| PyOther.

(** An instance of [AbsModel]: the attribute [_model], [''] at first. *)
Record abs_model : Type := AbsModelObj { _model : string }.

Definition init : abs_model := AbsModelObj "".

(** The property [model]: the getter, and the setter with its test
    [model and isinstance(model, str)]. *)
Definition get_model (self : abs_model) : string := _model self.

Definition set_model (self : abs_model) (model : pyvalue) : M abs_model :=
  match model with
  | PyStr s =>
      if negb (String.eqb s "") then ret (AbsModelObj s)
      else raise (ValueError "Please enter a valid absorption model")
  | PyOther => raise (ValueError "Please enter a valid absorption model")
  end.

Section Liquid.

(** [dilec12] of [utils], the permittivity of the newer models. *)
Variable dilec12 : R -> R -> Cplx.C.
Variable model : string.

(** [LiqAbsModel.liquid_water_absorption]. *)
Definition liquid_water_absorption (water freq temp : R) : M R :=
  if Rleb water 0 then ret 0
  else
    eps ←
      (if AbsModel.model_in model ["rose03"; "rose98"]%string then
         let theta1 := 1.0 - 300.0 / temp in
         let eps0 := 77.66 - 103.3 * theta1 in
         let eps1 := 0.0671 * eps0 in
         let eps2 := 3.52 in
         let fp := (316.0 * theta1 + 146.4) * theta1 + 20.2 in
         let fs := 39.8 * fp in
         ret (RTEquationRest.cadd
                (RTEquationRest.cadd
                   (Cplx.div (Cplx.of_real (eps0 - eps1))
                      (Cplx.mk 1.0 (freq / fp)))
                   (Cplx.div (Cplx.of_real (eps1 - eps2))
                      (Cplx.mk 1.0 (freq / fs))))
                (Cplx.of_real eps2))
       else if AbsModel.model_in model
                 ["rose17"; "rose16"; "rose19"; "rose19sd"]%string then
         ret (dilec12 freq temp)
       else raise (ValueError
         ("[AbsLiq] No model available with this name: " ++ model
          ++ " . Sorry...")%string));
    let re := Cplx.div (Cplx.sub eps (Cplx.of_real 1.0))
                (RTEquationRest.cadd eps (Cplx.of_real 2.0)) in
    let abliq := -0.06286 * Cplx.imag re * freq * water in
    ret abliq.

End Liquid.

Section Oxygen18.

Variable o2ll : AbsModel.o2_lines.

(** The line of index [k] in [o2abs_rosen18]. *)
Definition o2_line_18 (freq th1 den : R) (k : nat) (summ : R) : M R :=
  w ← getitem (AbsModel.w300 o2ll) k;
  let df := w * den in
  fcen ← getitem (AbsModel.f o2ll) k;
  y300k ← getitem (AbsModel.y300 o2ll) k;
  vk ← getitem (AbsModel.v o2ll) k;
  let y := den * (y300k + vk * th1) in
  s300k ← getitem (AbsModel.s300 o2ll) k;
  bek ← getitem (AbsModel.be o2ll) k;
  let strr := s300k * exp (- bek * th1) in
  let sf1 := (df + (freq - fcen) * y) / ((freq - fcen) ^ 2 + df * df) in
  let sf2 := (df - (freq + fcen) * y) / ((freq + fcen) ^ 2 + df * df) in
  fk ← getitem (AbsModel.f o2ll) k;
  ret (summ + strr * (sf1 + sf2) * (freq / fk) ^ 2).

(** [O2AbsModel.o2abs_rosen18]: the model selector is not read. *)
Definition o2abs_rosen18 (pdrykpa vx ekpa frq : R) : M (R * R) :=
  let rvap := (0.01 * 8.31451) / 18.01528 in
  let factor := 0.182 * frq in
  let temp := 300.0 / vx in
  let pres := (pdrykpa + ekpa) * 10.0 in
  let vapden := ekpa * 10.0 / (rvap * temp) in
  let freq := frq in
  let th := 300.0 / temp in
  let th1 := th - 1.0 in
  let b := AbsModel.pypow th (AbsModel.ox o2ll) in
  let preswv := (vapden * temp) / 216.68 in
  let presda := pres - preswv in
  let den := 0.001 * (presda * b + 1.2 * preswv * th) in
  let dfnr := AbsModel.wb300 o2ll * den in
  let summ := 1.584e-17 * freq * freq * dfnr
              / (th * (freq * freq + dfnr * dfnr)) in
  let nlines := length (AbsModel.f o2ll) in
  summ ← for_range (seq 0 nlines) (o2_line_18 freq th1 den) summ;
  let o2abs := 1.6097e+11 * summ * presda * th ^ 3 in
  let o2abs := Rmax o2abs 0.0 in
  let ncpp := 1.584e-17 * freq * freq * dfnr
              / (th * (freq * freq + dfnr * dfnr)) in
  let ncpp := 1.6097e+11 * ncpp * presda * th ^ 3 in
  let npp := (o2abs / AbsModel.db2np) / factor in
  let ncpp := (ncpp / AbsModel.db2np) / factor in
  ret (npp, ncpp).

End Oxygen18.

End AbsModelRest.

(** The names that [liquid_water_absorption] tests for. *)
Definition liquid_models : list string :=
  ["rose03"; "rose98"; "rose17"; "rose16"; "rose19"; "rose19sd"]%string.

(** A stand-in for [dilec12] in the examples. *)
Definition no_dilec12 (freq temp : R) : Cplx.C := (0, 0).

(** * Properties *)

(** ** The run-time model *)

Section Runs.

Context {A B : Type}.

Lemma bind_ret (a : A) (k : A -> M B) : ret a ≫= k = k a.
Proof.
  unfold mbind, M_bind, bind; simpl. now destruct (k a).
Qed.

Lemma bind_raise (e : exn) (k : A -> M B) : raise e ≫= k = raise e.
Proof. reflexivity. Qed.

Lemma bind_eq_ret_inv (m : M A) (k : A -> M B) (b : B) :
  m ≫= k = ret b -> exists a, m = ret a /\ k a = ret b.
Proof.
  unfold mbind, M_bind, bind. destruct m as [[a|e] w]; simpl; [|discriminate].
  destruct (k a) as [o w'] eqn:E; simpl. intros H. inversion H as [[Ho Hw]].
  apply app_eq_nil in Hw as [-> ->]. exists a. now subst.
Qed.

End Runs.

Lemma getitem_some (l : list R) (i : nat) (x : R) :
  l !! i = Some x -> getitem l i = ret x.
Proof. intros H. unfold getitem. now rewrite H. Qed.

Lemma getitem_none (l : list R) (i : nat) :
  l !! i = None -> getitem l i = raise IndexError.
Proof. intros H. unfold getitem. now rewrite H. Qed.

Lemma setitem_nil (i : nat) (x : R) : setitem [] i x = raise IndexError.
Proof.
  unfold setitem. destruct (decide (i < length (@nil R))%nat) as [H|H];
    [simpl in H; lia | reflexivity].
Qed.

Lemma setitem_in (l : list R) (i : nat) (x : R) :
  (i < length l)%nat -> setitem l i x = ret (<[i:=x]> l).
Proof.
  intros H. unfold setitem. now destruct (decide (i < length l)%nat).
Qed.

Lemma arange_cons (a b : nat) :
  (a <= b)%nat -> arange a b = a :: arange (S a) b.
Proof.
  intros H. unfold arange.
  replace (b + 1 - a)%nat with (S (b + 1 - S a)) by lia.
  reflexivity.
Qed.

Lemma for_range_cons {S} (i : nat) (xs : list nat) (body : nat -> S -> M S)
    (s : S) :
  for_range (i :: xs) body s = body i s ≫= for_range xs body.
Proof. reflexivity. Qed.

Lemma for_each_cons {S V} (i : nat) (xs : list nat)
    (body : nat -> S -> M (ctl S V)) (s : S) :
  for_each (i :: xs) body s
  = body i s ≫= (fun c => match c with
                          | Next s' => for_each xs body s'
                          | Return v => ret (Return v)
                          end).
Proof. reflexivity. Qed.

(** A loop that ran through [xs] without leaving goes on with the rest. *)
Lemma for_each_app_next {S V} (xs ys : list nat)
    (body : nat -> S -> M (ctl S V)) (s s' : S) :
  for_each xs body s = ret (Next s') ->
  for_each (xs ++ ys) body s = for_each ys body s'.
Proof.
  revert s. induction xs as [|i xs IH]; intros s H.
  - simpl in H. inversion H. reflexivity.
  - rewrite for_each_cons in H.
    apply bind_eq_ret_inv in H as [c [Hb Hk]].
    change ((i :: xs) ++ ys) with (i :: (xs ++ ys)).
    rewrite for_each_cons, Hb, bind_ret.
    destruct c as [s1|v]; [now apply IH | discriminate Hk].
Qed.

Lemma arange_split (a i b : nat) :
  (1 <= a <= i)%nat -> (i <= b)%nat ->
  arange a b = arange a (i - 1) ++ i :: arange (S i) b.
Proof.
  intros H Hb. unfold arange.
  replace (b + 1 - a)%nat with ((i - 1 + 1 - a) + S (b + 1 - S i))%nat by lia.
  rewrite seq_app. simpl seq.
  now replace (a + (i - 1 + 1 - a))%nat with i by lia.
Qed.

Lemma for_range_total {S} (xs : list nat) (body : nat -> S -> M S) :
  (forall i s, i ∈ xs -> exists s', body i s = ret s') ->
  forall s, exists s', for_range xs body s = ret s'.
Proof.
  induction xs as [|i xs IH]; intros Hbody s.
  - now exists s.
  - destruct (Hbody i s) as [s1 H1]; [apply list_elem_of_here|].
    rewrite for_range_cons, H1, bind_ret. apply IH.
    intros j t Hj. apply Hbody. now apply list_elem_of_further.
Qed.

(** The tests on a given model name, and the reads of a given list. *)
Ltac eval_tests :=
  repeat match goal with
  | |- context [AbsModel.model_in ?m ?l] =>
      let b := eval vm_compute in (AbsModel.model_in m l) in
      change (AbsModel.model_in m l) with b
  | |- context [AbsModel.startswith ?m ?l] =>
      let b := eval vm_compute in (AbsModel.startswith m l) in
      change (AbsModel.startswith m l) with b
  | |- context [String.eqb ?a ?b] =>
      let r := eval vm_compute in (String.eqb a b) in
      change (String.eqb a b) with r
  end; cbv iota.

Ltac read_given :=
  match goal with
  | |- context [getitem ?l ?i] =>
      let v := eval hnf in (l !! i) in
      match v with
      | Some ?x => rewrite (getitem_some l i x eq_refl), ?bind_ret
      end
  end.

(** A read inside the sequence: the value is there. *)
Ltac read_inside :=
  match goal with
  | |- context [getitem ?l ?i] =>
      let x := fresh "x" in
      let E := fresh "E" in
      destruct (l !! i) as [x|] eqn:E;
      [ rewrite (getitem_some l i x E), ?bind_ret
      | exfalso; apply lookup_ge_None in E; simpl in *; lia ]
  end.

(** Every read is either a value or [IndexError]. *)
Ltac read_item l i :=
  let x := fresh "x" in
  let E := fresh "E" in
  destruct (l !! i) as [x|] eqn:E;
  [ rewrite (getitem_some l i x E), bind_ret
  | rewrite (getitem_none l i E), bind_raise; try reflexivity ].

Lemma Rltb_true (a b : R) : a < b -> Rltb a b = true.
Proof. intros H. unfold Rltb. now destruct (Rlt_dec a b). Qed.

Lemma Rltb_false (a b : R) : ~ a < b -> Rltb a b = false.
Proof. intros H. unfold Rltb. now destruct (Rlt_dec a b). Qed.

Lemma Rleb_true (a b : R) : a <= b -> Rleb a b = true.
Proof. intros H. unfold Rleb. now destruct (Rle_dec a b). Qed.

Lemma Rleb_false (a b : R) : ~ a <= b -> Rleb a b = false.
Proof. intros H. unfold Rleb. now destruct (Rle_dec a b). Qed.

Lemma Reqb_true (a b : R) : a = b -> Reqb a b = true.
Proof. intros H. unfold Reqb. now destruct (Req_dec_T a b). Qed.

Lemma Reqb_false (a b : R) : a <> b -> Reqb a b = false.
Proof. intros H. unfold Reqb. now destruct (Req_dec_T a b). Qed.

Section RealFacts.

Lemma ln_gt_0 (x : R) : 1 < x -> 0 < ln x.
Proof.
  intros Hx. rewrite <- ln_1. apply ln_increasing; lra.
Qed.

Lemma inv_pos_plus_one (b : R) : 0 < b -> 1 < 1 + 1 / b.
Proof.
  intros Hb. assert (0 < / b) by now apply Rinv_0_lt_compat.
  unfold Rdiv; lra.
Qed.

End RealFacts.

(** C10: [bright_xxx] inverts the forward modified Planck radiance:
    for [hvk > 0] and a radiance [b > 0], the radiance of the temperature
    [bright_xxx hvk b] is [b] again. *)
Theorem bright_xxx_inverts_planck (hvk b : R) :
  0 < hvk -> 0 < b ->
  RTEquation.tk2b_mod hvk (RTEquation.bright_xxx hvk b) = b.
Proof.
  intros Hh Hb. unfold RTEquation.tk2b_mod, RTEquation.bright_xxx.
  replace (1.0 + 1.0 / b) with (1 + 1 / b) by lra.
  pose proof (inv_pos_plus_one b Hb) as H1.
  pose proof (ln_gt_0 _ H1) as HL.
  replace (hvk / (hvk / ln (1 + 1 / b))) with (ln (1 + 1 / b))
    by (field; split; lra).
  rewrite exp_ln by lra.
  field; lra.
Qed.

(** C10 at [hvk = 1] and a radiance of 1. *)
Lemma bright_xxx_inverts_planck_witness :
  RTEquation.tk2b_mod 1 (RTEquation.bright_xxx 1 1) = 1.
Proof.
  apply (bright_xxx_inverts_planck 1 1); lra.
Defined.

(** ** [refract_xxx] *)

Lemma refract_level_raises (p tk e : list R) (i : nat) :
  RTEquation.refract_level p tk e i ([], [], []) = raise IndexError.
Proof.
  unfold RTEquation.refract_level.
  read_item p i. read_item e i. read_item tk i.
  now rewrite !setitem_nil, bind_raise.
Qed.

Lemma refract_xxx_nonempty (p0 : R) (p tk e : list R) :
  RTEquation.refract_xxx (p0 :: p) tk e = raise IndexError.
Proof.
  unfold RTEquation.refract_xxx.
  rewrite arange_cons by (simpl; lia).
  now rewrite for_range_cons, refract_level_raises, !bind_raise.
Qed.

(** C3 at a two-level profile: [refract_xxx] returns no arrays, it raises
    [IndexError] at its first indexed access. *)
Theorem refract_xxx_two_levels :
  RTEquation.refract_xxx [1013.0; 900.0] [300.0; 290.0] [20.0; 10.0]
  = raise IndexError.
Proof. apply refract_xxx_nonempty. Qed.

Lemma refract_xxx_same_arrays (p tk e dryn wetn refindx : list R) :
  outcome (RTEquation.refract_xxx p tk e) = Ok (dryn, wetn, refindx) ->
  dryn = wetn.
Proof.
  unfold RTEquation.refract_xxx, mbind, M_bind, bind.
  destruct (outcome (for_range _ _ _)) as [[[w d] r]|err]; simpl;
    intros H; now inversion H.
Qed.

(** ** [ray_trac_xxx] *)

Lemma check_index_cases (refindx : list R) (i : nat) :
  match refindx !! i with
  | None => RTEquation.check_index refindx i tt = raise IndexError
  | Some n =>
      if Rlt_dec n 1
      then RTEquation.check_index refindx i tt
           = MkM (Ok (Return None)) [negative_index_warning]
      else RTEquation.check_index refindx i tt = ret (Next tt)
  end.
Proof.
  unfold RTEquation.check_index.
  destruct (refindx !! i) as [n|] eqn:E.
  - rewrite (getitem_some _ _ _ E), bind_ret.
    destruct (Rlt_dec n 1) as [H|H].
    + now rewrite Rltb_true.
    + now rewrite Rltb_false.
  - now rewrite (getitem_none _ _ E), bind_raise.
Qed.

(** The first loop ends in one of three ways. *)
Lemma check_loop_cases (refindx : list R) (xs : list nat) :
  for_each xs (RTEquation.check_index refindx) tt = raise IndexError
  \/ for_each xs (RTEquation.check_index refindx) tt
     = MkM (Ok (Return None)) [negative_index_warning]
  \/ for_each xs (RTEquation.check_index refindx) tt = ret (Next tt).
Proof.
  induction xs as [|i xs IH].
  - right; right; reflexivity.
  - rewrite for_each_cons.
    pose proof (check_index_cases refindx i) as Hc.
    destruct (refindx !! i) as [n|].
    + destruct (Rlt_dec n 1); rewrite Hc.
      * right; left; reflexivity.
      * rewrite bind_ret. exact IH.
    + rewrite Hc. left; reflexivity.
Qed.

(** A level below 1 inside the range makes the first loop return [None]. *)
Lemma check_loop_finds (refindx : list R) (n a i : nat) (v : R) :
  (a <= i < a + n)%nat -> refindx !! i = Some v -> v < 1 ->
  for_each (seq a n) (RTEquation.check_index refindx) tt
  = MkM (Ok (Return None)) [negative_index_warning].
Proof.
  revert a. induction n as [|n IH]; intros a Hi Hv Hlt; [lia|].
  simpl seq. rewrite for_each_cons.
  pose proof (check_index_cases refindx a) as Hc.
  destruct (refindx !! a) as [w|] eqn:Ea.
  - destruct (Rlt_dec w 1) as [Hw|Hw]; rewrite Hc; [reflexivity|].
    rewrite bind_ret. apply IH; auto.
    destruct (Nat.eq_dec a i) as [->|]; [|lia].
    rewrite Hv in Ea. inversion Ea; subst. contradiction.
  - exfalso. apply lookup_lt_Some in Hv. apply lookup_ge_None in Ea. lia.
Qed.

(** Past the first loop every path stores into the empty list [ds]. *)
Lemma ray_trac_xxx_cases (constants : string -> R) (z refindx : list R)
    (angle z0 : R) :
  RTEquation.ray_trac_xxx constants z refindx angle z0 = raise IndexError
  \/ RTEquation.ray_trac_xxx constants z refindx angle z0
     = MkM (Ok None) [negative_index_warning].
Proof.
  unfold RTEquation.ray_trac_xxx.
  destruct (check_loop_cases refindx (arange 1 (length z))) as [H|[H|H]];
    rewrite H.
  - left; reflexivity.
  - right; reflexivity.
  - left. rewrite bind_ret.
    destruct (RTEquation.near_vertical angle).
    + now rewrite setitem_nil, !bind_raise.
    + rewrite bind_ret. read_item z 1%nat.
      now rewrite setitem_nil, bind_raise.
Qed.

Lemma check_loop_passes (refindx : list R) (xs : list nat) :
  Forall (fun n => 1 <= n) refindx ->
  for_each xs (RTEquation.check_index refindx) tt = raise IndexError
  \/ for_each xs (RTEquation.check_index refindx) tt = ret (Next tt).
Proof.
  intros Hall. induction xs as [|i xs IH].
  - right; reflexivity.
  - rewrite for_each_cons.
    pose proof (check_index_cases refindx i) as Hc.
    destruct (refindx !! i) as [n|] eqn:E.
    + pose proof (Forall_lookup_1 _ _ _ _ Hall E) as Hn. simpl in Hn.
      destruct (Rlt_dec n 1); [lra|].
      rewrite Hc, bind_ret. exact IH.
    + rewrite Hc. left; reflexivity.
Qed.

(** C4: at an elevation of exactly 90 degrees and with every refractive
    index at least 1, [ray_trac_xxx] returns no slant-path profile: the
    store [ds[1] = 0.0] into the empty list (or an index read before it)
    raises [IndexError]. *)
Theorem ray_trac_xxx_vertical_raises (constants : string -> R)
    (z refindx : list R) (z0 : R) :
  Forall (fun n => 1 <= n) refindx ->
  RTEquation.ray_trac_xxx constants z refindx 90 z0 = raise IndexError.
Proof.
  intros Hall. unfold RTEquation.ray_trac_xxx.
  destruct (check_loop_passes refindx (arange 1 (length z)) Hall) as [H|H];
    rewrite H; [reflexivity|].
  rewrite bind_ret.
  destruct (RTEquation.near_vertical 90).
  - now rewrite setitem_nil, !bind_raise.
  - rewrite bind_ret. read_item z 1%nat.
    now rewrite setitem_nil, bind_raise.
Qed.

(** C4 at a three-level profile. *)
Lemma ray_trac_xxx_vertical_raises_witness :
  RTEquation.ray_trac_xxx example_constants [0.0; 1.0; 2.0]
    [1.0003; 1.0002; 1.0001] 90 0.0 = raise IndexError.
Proof.
  apply ray_trac_xxx_vertical_raises.
  repeat (apply Forall_cons; split; [lra|]). apply Forall_nil_2.
Defined.

(** The test for a vertical ray holds at 90 degrees, so the failing store
    is the one of the height-difference branch. *)
Lemma near_vertical_90 : RTEquation.near_vertical 90 = true.
Proof.
  unfold RTEquation.near_vertical, logical_and, truthy.
  rewrite !Reqb_false by lra. simpl.
  now rewrite !Rleb_true by lra.
Qed.

(** C5 (refuted as stated): with [refindx[1] < 1] the routine warns and
    returns [None], not a slant-path profile. *)
Lemma ray_trac_xxx_negative_index_none :
  RTEquation.ray_trac_xxx example_constants [0.0; 1.0] [1.0003; 0.9997] 45 0.0
  = MkM (Ok None) [negative_index_warning]
  /\ ~ (exists ds : list R,
          outcome (RTEquation.ray_trac_xxx example_constants [0.0; 1.0]
                     [1.0003; 0.9997] 45 0.0) = Ok (Some ds)).
Proof.
  assert (E : RTEquation.ray_trac_xxx example_constants [0.0; 1.0]
                [1.0003; 0.9997] 45 0.0
              = MkM (Ok None) [negative_index_warning]).
  { unfold RTEquation.ray_trac_xxx, arange.
    rewrite (check_loop_finds [1.0003; 0.9997] _ 1 1 0.9997);
      [reflexivity | simpl; lia | reflexivity | lra]. }
  split; [exact E|]. rewrite E. simpl. intros [ds H]. discriminate H.
Qed.

(** C5 (amended): a refractive index below 1 at one of the positions
    [1 .. len(z)] makes [ray_trac_xxx] warn and return [None]; and in the
    layer loop a non-positive [argth] makes the body warn and return the
    list [ds] as it stands. *)
Theorem ray_trac_xxx_failures (constants : string -> R) (z refindx : list R)
    (angle z0 : R) :
  (forall (i : nat) (v : R),
      (1 <= i <= length z)%nat -> refindx !! i = Some v -> v < 1 ->
      RTEquation.ray_trac_xxx constants z refindx angle z0
      = MkM (Ok None) [negative_index_warning])
  /\ (forall (re rs theta0 costh0 sina a0 : R) (i : nat)
        (s : RTEquation.boundary) (zi ni nm n1 : R),
      z !! i = Some zi -> refindx !! i = Some ni ->
      refindx !! (i - 1)%nat = Some nm -> refindx !! 1%nat = Some n1 ->
      0.5 * (a0 + (zi / rs - ((n1 - ni) * costh0 / ni))) / (re + zi + z0) <= 0 ->
      RTEquation.ray_layer z refindx angle z0 re rs theta0 costh0 sina a0 i s
      = MkM (Ok (Return (Some (RTEquation.b_ds s)))) [ducting_warning angle]).
Proof.
  split.
  - intros i v Hi Hv Hlt. unfold RTEquation.ray_trac_xxx, arange.
    rewrite (check_loop_finds refindx _ 1 i v); [reflexivity | lia | easy | easy].
  - intros re rs theta0 costh0 sina a0 i s zi ni nm n1 Hz Hni Hnm Hn1 Harg.
    unfold RTEquation.ray_layer.
    rewrite (getitem_some _ _ _ Hz), bind_ret.
    rewrite (getitem_some _ _ _ Hni), bind_ret.
    rewrite (getitem_some _ _ _ Hnm), bind_ret.
    rewrite (getitem_some _ _ _ Hn1), bind_ret.
    now rewrite Rleb_true.
Qed.

(** C5 (amended) at a two-level profile: an index of 0.5 at position 1,
    and a layer whose argument is exactly 0. *)
Lemma ray_trac_xxx_failures_witness :
  RTEquation.ray_trac_xxx example_constants [0.0; 0.0] [1.0; 0.5] 0 0.0
  = MkM (Ok None) [negative_index_warning]
  /\ RTEquation.ray_layer [0.0; 0.0] [1.0; 1.0] 0 0.0 6370.949 6370.949
       0 1 0 0 1 (RTEquation.Boundary [0.0; 0.0] 0 0 6370.949 0)
     = MkM (Ok (Return (Some [0.0; 0.0]))) [ducting_warning 0].
Proof.
  split.
  - apply (proj1 (ray_trac_xxx_failures example_constants [0.0; 0.0]
                    [1.0; 0.5] 0 0.0) 1%nat 0.5);
      [simpl; lia | reflexivity | lra].
  - apply (proj2 (ray_trac_xxx_failures example_constants [0.0; 0.0]
                    [1.0; 1.0] 0 0.0) 6370.949 6370.949 0 1 0 0 1%nat
             (RTEquation.Boundary [0.0; 0.0] 0 0 6370.949 0) 0.0 1.0 1.0 1.0);
      [reflexivity | reflexivity | reflexivity | reflexivity | lra].
Defined.

(** ** [exp_int_xxx] *)

Lemma exp_int_layer_negative (zeroflg : Z) (x ds : list R) (i : nat)
    (s : R) (a : list R) (xm xi : R) :
  x !! (i - 1)%nat = Some xm -> x !! i = Some xi -> xm < 0 \/ xi < 0 ->
  RTEquation.exp_int_layer zeroflg x ds i (s, a)
  = MkM (Ok (Return (s, a))) [exp_int_warning].
Proof.
  intros Hm Hi Hneg. unfold RTEquation.exp_int_layer.
  rewrite (getitem_some _ _ _ Hm), bind_ret.
  rewrite (getitem_some _ _ _ Hi), bind_ret.
  destruct Hneg as [H|H].
  - now rewrite (Rltb_true xm) by lra.
  - rewrite (Rltb_true xi) by lra. now rewrite orb_true_r.
Qed.

(** Two end points that are positive and apart reach the expression
    [(x(i) - x(i - 1)) / np.log(x(i) / x(i - 1))], which calls [x]. *)
Lemma exp_int_layer_log_mean (zeroflg : Z) (x ds : list R) (i : nat)
    (s : R * list R) (xm xi : R) :
  x !! (i - 1)%nat = Some xm -> x !! i = Some xi ->
  0 < xm -> 0 < xi -> 1e-09 <= Rabs (xi - xm) ->
  RTEquation.exp_int_layer zeroflg x ds i s = raise (TypeError "x").
Proof.
  intros Hm Hi Hpm Hpi Hfar. unfold RTEquation.exp_int_layer.
  destruct s as [sxds xds].
  rewrite (getitem_some _ _ _ Hm), bind_ret.
  rewrite (getitem_some _ _ _ Hi), bind_ret.
  rewrite !Rltb_false by lra. rewrite !Reqb_false by lra.
  reflexivity.
Qed.

(** C6 at a layer with end points 1 and 2: the log-mean branch is reached
    and [exp_int_xxx] raises [TypeError] instead of returning the layer
    integral. *)
Theorem exp_int_xxx_log_mean_raises :
  RTEquation.exp_int_xxx 0 [1.0; 2.0] [0.0; 1.0] 0 1 1.0
  = raise (TypeError "x").
Proof.
  unfold RTEquation.exp_int_xxx.
  rewrite arange_cons by lia. rewrite for_each_cons.
  rewrite (exp_int_layer_log_mean 0 [1.0; 2.0] [0.0; 1.0] 1 _ 1.0 2.0);
    [reflexivity | reflexivity | reflexivity | lra | lra |].
  replace (2.0 - 1.0) with 1 by lra. rewrite Rabs_R1. lra.
Qed.

(** The layers that do go through: nearly equal end points, and an end
    point that is exactly zero. *)
Lemma exp_int_layer_near_equal (zeroflg : Z) (x ds : list R) (i : nat)
    (s : R) (a : list R) (xm xi d : R) :
  x !! (i - 1)%nat = Some xm -> x !! i = Some xi -> ds !! i = Some d ->
  (i < length a)%nat ->
  0 <= xm -> 0 <= xi -> Rabs (xi - xm) < 1e-09 ->
  RTEquation.exp_int_layer zeroflg x ds i (s, a)
  = ret (Next (s + xi * d, <[i:=xi * d]> a)).
Proof.
  intros Hm Hi Hd Hlen Hpm Hpi Hnear. unfold RTEquation.exp_int_layer.
  rewrite (getitem_some _ _ _ Hm), bind_ret.
  rewrite (getitem_some _ _ _ Hi), bind_ret.
  rewrite !Rltb_false by lra. rewrite (Rltb_true _ _ Hnear).
  cbn [orb]. rewrite bind_ret.
  rewrite (getitem_some _ _ _ Hd), bind_ret.
  rewrite (setitem_in _ _ _ Hlen), bind_ret.
  rewrite (getitem_some (<[i:=xi * d]> a) i (xi * d)), bind_ret;
    [reflexivity | now apply list_lookup_insert_eq].
Qed.

Lemma exp_int_layer_zero (zeroflg : Z) (x ds : list R) (i : nat)
    (s : R) (a : list R) (xm xi d : R) :
  x !! (i - 1)%nat = Some xm -> x !! i = Some xi -> ds !! i = Some d ->
  (i < length a)%nat ->
  0 <= xm -> 0 <= xi -> 1e-09 <= Rabs (xi - xm) -> xm = 0 \/ xi = 0 ->
  let xlayer := if decide (zeroflg = 0%Z) then 0 else (xi + xm) / 2 in
  RTEquation.exp_int_layer zeroflg x ds i (s, a)
  = ret (Next (s + xlayer * d, <[i:=xlayer * d]> a)).
Proof.
  intros Hm Hi Hd Hlen Hpm Hpi Hfar Hz xlayer.
  unfold RTEquation.exp_int_layer.
  rewrite (getitem_some _ _ _ Hm), bind_ret.
  rewrite (getitem_some _ _ _ Hi), bind_ret.
  rewrite !Rltb_false by lra. cbn [orb].
  assert (Hzero : Reqb xm 0.0 || Reqb xi 0.0 = true).
  { destruct Hz as [H|H].
    - rewrite (Reqb_true xm) by lra. reflexivity.
    - rewrite (Reqb_true xi) by lra. apply orb_true_r. }
  rewrite Hzero.
  assert (Hx : (if decide (zeroflg = 0%Z) then ret 0.0
                else ret ((xi + xm) * 0.5)) = ret xlayer).
  { unfold xlayer. destruct (decide (zeroflg = 0%Z)); f_equal; lra. }
  rewrite Hx, bind_ret.
  rewrite (getitem_some _ _ _ Hd), bind_ret.
  rewrite (setitem_in _ _ _ Hlen), bind_ret.
  rewrite (getitem_some (<[i:=xlayer * d]> a) i (xlayer * d)), bind_ret;
    [reflexivity | now apply list_lookup_insert_eq].
Qed.

(** A layer that lets the loop go on has written position [i] only. *)
Lemma exp_int_layer_next (zeroflg : Z) (x ds : list R) (i : nat)
    (s s' : R) (a a' : list R) :
  RTEquation.exp_int_layer zeroflg x ds i (s, a) = ret (Next (s', a')) ->
  exists v, a' = <[i:=v]> a /\ s' = s + v.
Proof.
  unfold RTEquation.exp_int_layer.
  destruct (x !! (i - 1)%nat) as [xm|] eqn:Em;
    [rewrite (getitem_some _ _ _ Em), bind_ret
    |rewrite (getitem_none _ _ Em), bind_raise; discriminate].
  destruct (x !! i) as [xi|] eqn:Ei;
    [rewrite (getitem_some _ _ _ Ei), bind_ret
    |rewrite (getitem_none _ _ Ei), bind_raise; discriminate].
  destruct (Rltb xm 0.0 || Rltb xi 0.0); [discriminate|].
  intros H. apply bind_eq_ret_inv in H as [xl [_ H]].
  destruct (ds !! i) as [d|] eqn:Ed;
    [rewrite (getitem_some _ _ _ Ed), bind_ret in H
    |rewrite (getitem_none _ _ Ed), bind_raise in H; discriminate].
  unfold setitem in H.
  destruct (decide (i < length a)%nat) as [Hlen|Hlen];
    [rewrite bind_ret in H | rewrite bind_raise in H; discriminate].
  rewrite (getitem_some (<[i:=xl * d]> a) i (xl * d)), bind_ret in H
    by now apply list_lookup_insert_eq.
  inversion H. now exists (xl * d).
Qed.

(** Positions outside the layers run through keep their value. *)
Lemma exp_int_loop_frame (zeroflg : Z) (x ds : list R) (xs : list nat)
    (s s' : R) (a a' : list R) (j : nat) :
  for_each xs (RTEquation.exp_int_layer zeroflg x ds) (s, a)
  = ret (Next (s', a')) ->
  j ∉ xs -> a' !! j = a !! j.
Proof.
  revert s a. induction xs as [|i xs IH]; intros s a H Hj.
  - simpl in H. now inversion H.
  - rewrite for_each_cons in H.
    apply bind_eq_ret_inv in H as [c [Hb Hk]].
    destruct c as [[s1 a1]|r]; [|discriminate].
    apply exp_int_layer_next in Hb as [v [-> _]].
    apply not_elem_of_cons in Hj as [Hne Hj].
    rewrite (IH _ _ Hk Hj). now apply list_lookup_insert_ne.
Qed.

(** C7 (refuted as stated): layer 1 contributes 1, layer 2 has a negative
    end point, the factor is 2; the sum handed back is 1, not 1 * 2. *)
Lemma exp_int_xxx_abort_unscaled :
  exists (sxds : R) (xds : list R),
    RTEquation.exp_int_xxx 0 [1.0; 1.0; -1.0] [0.0; 1.0; 1.0] 0 2 2.0
    = MkM (Ok (sxds, xds)) [exp_int_warning]
    /\ sxds = 1 /\ sxds <> 1 * 2.0.
Proof.
  exists (0.0 + 1.0 * 1.0), (<[1%nat:=1.0 * 1.0]> [0; 0; 0]).
  split; [|split; lra].
  unfold RTEquation.exp_int_xxx.
  rewrite arange_cons by lia. rewrite for_each_cons.
  rewrite (exp_int_layer_near_equal 0 [1.0; 1.0; -1.0] [0.0; 1.0; 1.0] 1
             0.0 _ 1.0 1.0 1.0);
    [| reflexivity | reflexivity | reflexivity | simpl; lia | lra | lra |].
  - rewrite bind_ret, arange_cons by lia. rewrite for_each_cons.
    rewrite (exp_int_layer_negative 0 [1.0; 1.0; -1.0] [0.0; 1.0; 1.0] 2
               _ _ 1.0 (-1.0)); [reflexivity | reflexivity | reflexivity | lra].
  - replace (1.0 - 1.0) with 0 by lra. rewrite Rabs_R0. lra.
Qed.

(** C7 (amended): when layer [i] of the range has a negative end point and
    the layers before it went through with sum [s] and array [a],
    [exp_int_xxx] warns and returns [s] itself, not multiplied by the
    factor, with [a]; the same layers alone would return [s * factor];
    and [a] is zero from position [i] on. *)
Theorem exp_int_xxx_negative_abort (zeroflg : Z) (x ds : list R)
    (ibeg i iend : nat) (factor s : R) (a : list R) (xm xi : R) :
  (ibeg < i <= iend)%nat ->
  x !! (i - 1)%nat = Some xm -> x !! i = Some xi -> xm < 0 \/ xi < 0 ->
  for_each (arange (ibeg + 1) (i - 1)) (RTEquation.exp_int_layer zeroflg x ds)
    (0.0, zeros_like ds) = ret (Next (s, a)) ->
  RTEquation.exp_int_xxx zeroflg x ds ibeg iend factor
  = MkM (Ok (s, a)) [exp_int_warning]
  /\ RTEquation.exp_int_xxx zeroflg x ds ibeg (i - 1) factor
     = ret (s * factor, a)
  /\ forall j : nat, (i <= j < length ds)%nat -> a !! j = Some 0.
Proof.
  intros Hi Hm Hx Hneg Hrun. split; [|split].
  - unfold RTEquation.exp_int_xxx.
    rewrite (arange_split (ibeg + 1) i iend) by lia.
    rewrite (for_each_app_next _ _ _ _ _ Hrun), for_each_cons.
    now rewrite (exp_int_layer_negative _ _ _ _ _ _ _ _ Hm Hx Hneg).
  - unfold RTEquation.exp_int_xxx. now rewrite Hrun, bind_ret.
  - intros j Hj.
    rewrite (exp_int_loop_frame _ _ _ _ _ _ _ _ j Hrun).
    + unfold zeros_like. apply lookup_replicate_2. lia.
    + unfold arange. rewrite list_elem_of_In, in_seq. lia.
Qed.

Lemma exp_int_first_layer_run :
  for_each (arange (0 + 1) (2 - 1))
    (RTEquation.exp_int_layer 0 [1.0; 1.0; -1.0] [0.0; 1.0; 1.0])
    (0.0, zeros_like [0.0; 1.0; 1.0])
  = ret (Next (0.0 + 1.0 * 1.0, <[1%nat:=1.0 * 1.0]> [0; 0; 0])).
Proof.
  rewrite arange_cons by lia. rewrite for_each_cons.
  rewrite (exp_int_layer_near_equal 0 [1.0; 1.0; -1.0] [0.0; 1.0; 1.0] 1
             0.0 _ 1.0 1.0 1.0);
    [| reflexivity | reflexivity | reflexivity | simpl; lia | lra | lra |].
  - now rewrite bind_ret.
  - replace (1.0 - 1.0) with 0 by lra. rewrite Rabs_R0. lra.
Qed.

(** C7 (amended) on the profile of the refutation above. *)
Lemma exp_int_xxx_negative_abort_witness :
  RTEquation.exp_int_xxx 0 [1.0; 1.0; -1.0] [0.0; 1.0; 1.0] 0 2 2.0
  = MkM (Ok (0.0 + 1.0 * 1.0, <[1%nat:=1.0 * 1.0]> [0; 0; 0]))
      [exp_int_warning]
  /\ RTEquation.exp_int_xxx 0 [1.0; 1.0; -1.0] [0.0; 1.0; 1.0] 0 (2 - 1) 2.0
     = ret ((0.0 + 1.0 * 1.0) * 2.0, <[1%nat:=1.0 * 1.0]> [0; 0; 0])
  /\ forall j : nat,
       (2 <= j < length [0.0; 1.0; 1.0]%R)%nat ->
       <[1%nat:=1.0 * 1.0]> [0; 0; 0] !! j = Some 0.
Proof.
  apply (exp_int_xxx_negative_abort 0 [1.0; 1.0; -1.0] [0.0; 1.0; 1.0]
           0 2 2 2.0 _ _ 1.0 (-1.0));
    [lia | reflexivity | reflexivity | right; lra
    | exact exp_int_first_layer_run].
Defined.

(** ** [planck_xxx] *)

(** C2: [planck_xxx] returns nothing for any input: the store
    [boft[1] = tk2b_mod(hvk, tk[1])] reads [tk[1]] and then looks up
    [boft], which is bound nowhere; so neither [bakgrnd] nor [boftmr] is
    produced, whatever the optical depth. *)
Theorem planck_xxx_raises (constants : string -> R) (frq : R)
    (tk taulay : list R) :
  RTEquation.planck_xxx constants frq tk taulay
  = match tk !! 1%nat with
    | Some _ => raise (NameError "boft")
    | None => raise IndexError
    end.
Proof.
  unfold RTEquation.planck_xxx.
  destruct (tk !! 1%nat) as [t1|] eqn:E.
  - rewrite (getitem_some _ _ _ E), bind_ret. reflexivity.
  - rewrite (getitem_none _ _ E). reflexivity.
Qed.

(** What the closing branch computes from finished profiles: above the
    ceiling the background is 0 and [boftmr] is [boftatm[nl]]; below it the
    background is attenuated and [boftmr] is divided by [1 - exp(-tau)]. *)
Lemma planck_background_saturated (hvk Tc : R) (nl : nat)
    (boft boftatm tauprof : list R) (tn an : R) :
  tauprof !! nl = Some tn -> boftatm !! nl = Some an -> 125 <= tn ->
  RTEquation.planck_background hvk Tc 125.0 nl boft boftatm tauprof
  = ret (RTEquation.PlanckResult an boftatm an tauprof hvk boft 0.0).
Proof.
  intros Ht Ha Hbig. unfold RTEquation.planck_background.
  rewrite (getitem_some _ _ _ Ht), bind_ret.
  rewrite Rltb_false by lra.
  now rewrite (getitem_some _ _ _ Ha), bind_ret.
Qed.

Lemma planck_background_thin (hvk Tc : R) (nl : nat)
    (boft boftatm tauprof : list R) (tn an : R) :
  tauprof !! nl = Some tn -> boftatm !! nl = Some an -> tn < 125 ->
  RTEquation.planck_background hvk Tc 125.0 nl boft boftatm tauprof
  = ret (RTEquation.PlanckResult
           (RTEquation.tk2b_mod hvk Tc * exp (- tn) + an) boftatm
           (an / (1.0 - exp (- tn))) tauprof hvk boft
           (RTEquation.tk2b_mod hvk Tc * exp (- tn))).
Proof.
  intros Ht Ha Hsmall. unfold RTEquation.planck_background.
  rewrite (getitem_some _ _ _ Ht), bind_ret.
  rewrite Rltb_true by lra.
  now rewrite (getitem_some _ _ _ Ha), bind_ret.
Qed.

(** ** The model selector in [absmodel.py] *)

Lemma model_in_In (model : string) (names : list string) :
  AbsModel.model_in model names = true <-> In model names.
Proof.
  unfold AbsModel.model_in. rewrite existsb_exists. split.
  - intros [x [Hx Heq]]. apply String.eqb_eq in Heq. now subst.
  - intros H. exists model. split; [exact H | apply String.eqb_refl].
Qed.

Lemma n2_absorption_old_models (model : string) (t p f : R) :
  AbsModel.model_in model
    ["rose03"; "rose16"; "rose17"; "rose18"; "rose98"]%string = true ->
  exists a, AbsModel.n2_absorption model t p f = ret a.
Proof.
  intros H. apply model_in_In in H. simpl in H.
  destruct H as [<-|[<-|[<-|[<-|[<-|[]]]]]]; eexists; reflexivity.
Qed.

(** ** [o2abs_rosen19] *)

Section OxygenFacts.

Variable ll : AbsModel.o2_lines.
Hypothesis Hcols : o2_columns_ok ll.

Lemma o2_column_lengths :
  length (AbsModel.s300 ll) = length (AbsModel.f ll)
  /\ length (AbsModel.be ll) = length (AbsModel.f ll)
  /\ length (AbsModel.w300 ll) = length (AbsModel.f ll)
  /\ length (AbsModel.y300 ll) = length (AbsModel.f ll)
  /\ length (AbsModel.v ll) = length (AbsModel.f ll)
  /\ length (AbsModel.y0 ll) = length (AbsModel.f ll)
  /\ length (AbsModel.y1 ll) = length (AbsModel.f ll)
  /\ length (AbsModel.dnu0 ll) = length (AbsModel.f ll)
  /\ length (AbsModel.dnu1 ll) = length (AbsModel.f ll)
  /\ length (AbsModel.g0 ll) = length (AbsModel.f ll)
  /\ length (AbsModel.g1 ll) = length (AbsModel.f ll).
Proof using Hcols.
  unfold o2_columns_ok in Hcols.
  repeat (apply Forall_cons in Hcols as [? Hcols]). tauto.
Qed.

Lemma o2_line_9803_total (freq pres b th1 den dens0 : R) (k : nat) (summ : R) :
  (k < length (AbsModel.f ll))%nat ->
  exists r, AbsModel.o2_line_9803 ll freq pres b th1 den (Some dens0) k summ
            = ret r.
Proof using Hcols.
  intros Hk. pose proof o2_column_lengths as Hlen.
  unfold AbsModel.o2_line_9803, load_local.
  destruct (Nat.eqb k 0); repeat read_inside; rewrite ?bind_ret;
    repeat read_inside; eexists; reflexivity.
Qed.

Lemma o2_line_1718_total (freq th1 den : R) (k : nat) (summ : R) :
  (k < length (AbsModel.f ll))%nat ->
  exists r, AbsModel.o2_line_1718 ll freq th1 den k summ = ret r.
Proof using Hcols.
  intros Hk. pose proof o2_column_lengths as Hlen.
  unfold AbsModel.o2_line_1718.
  repeat read_inside; eexists; reflexivity.
Qed.

Lemma o2_line_else_total (freq th1 den pe2 : R) (k : nat) (summ : R) :
  (k < length (AbsModel.f ll))%nat ->
  exists r, AbsModel.o2_line_else ll freq th1 den pe2 k summ = ret r.
Proof using Hcols.
  intros Hk. pose proof o2_column_lengths as Hlen.
  unfold AbsModel.o2_line_else.
  repeat read_inside; eexists; reflexivity.
Qed.

End OxygenFacts.

Lemma o2_line_sum_total (ll : AbsModel.o2_lines) (model : string)
    (freq pres b th1 den pe2 : R) (dens : option R) (summ : R) :
  o2_columns_ok ll ->
  (AbsModel.model_in model ["rose03"; "rose98"]%string = true ->
   exists d, dens = Some d) ->
  exists r, AbsModel.o2_line_sum ll model freq pres b th1 den pe2 dens summ
            = ret r.
Proof.
  intros Hcols Hdens. unfold AbsModel.o2_line_sum.
  destruct (AbsModel.model_in model ["rose03"; "rose98"]%string).
  - destruct (Hdens eq_refl) as [d ->].
    apply for_range_total. intros i s Hi.
    apply list_elem_of_In, in_seq in Hi.
    apply o2_line_9803_total; [exact Hcols | lia].
  - destruct (AbsModel.model_in model ["rose17"; "rose18"]%string);
      apply for_range_total; intros i s Hi;
      apply list_elem_of_In, in_seq in Hi;
      [apply o2_line_1718_total | apply o2_line_else_total];
      solve [exact Hcols | lia].
Qed.

Lemma db2np_pos : 0 < AbsModel.db2np.
Proof.
  unfold AbsModel.db2np.
  assert (0 < ln 10.0) by (apply ln_gt_0; lra). lra.
Qed.

Lemma o2_clamp_nonneg (model : string) (summ presda th : R) :
  model <> "rose98"%string -> 0 <= AbsModel.o2_clamp model summ presda th.
Proof.
  intros Hne. unfold AbsModel.o2_clamp.
  apply String.eqb_neq in Hne. rewrite Hne. cbn [negb].
  destruct (AbsModel.model_in model ["rose20"; "rose20sd"]%string).
  - match goal with |- 0 <= 1.004 * Rmax ?y 0.0 =>
      pose proof (Rmax_r y 0.0) end.
    lra.
  - match goal with |- 0 <= Rmax ?y 0.0 => pose proof (Rmax_r y 0.0) end.
    lra.
Qed.

Lemma o2_clamp_rose98 (summ presda th : R) :
  AbsModel.o2_clamp "rose98" summ presda th
  = 5.034e+11 * summ * presda * th ^ 3 / 3.14159.
Proof. reflexivity. Qed.

Lemma scaled_nonneg (x frq : R) :
  0 <= x -> 0 < frq -> 0 <= x / AbsModel.db2np / (0.182 * frq).
Proof.
  intros Hx Hf. pose proof db2np_pos.
  apply Rle_mult_inv_pos; [|lra].
  apply Rle_mult_inv_pos; lra.
Qed.

Lemma scaled_neg (x frq : R) :
  x < 0 -> 0 < frq -> x / AbsModel.db2np / (0.182 * frq) < 0.
Proof.
  intros Hx Hf. pose proof db2np_pos.
  assert (0 < - x / AbsModel.db2np / (0.182 * frq)).
  { apply Rdiv_lt_0_compat; [|lra]. apply Rdiv_lt_0_compat; lra. }
  unfold Rdiv in *. lra.
Qed.

(** With lock-step columns the routine returns for every model name, and
    for every name but [rose98] the resonant term is not negative. *)
Lemma o2abs_rosen19_nonneg (ll : AbsModel.o2_lines) (model : string)
    (pdrykpa vx ekpa frq : R) :
  o2_columns_ok ll -> 0 < frq ->
  exists npp ncpp,
    AbsModel.o2abs_rosen19 ll model pdrykpa vx ekpa frq = ret (npp, ncpp)
    /\ (model <> "rose98"%string -> 0 <= npp).
Proof.
  intros Hcols Hf. unfold AbsModel.o2abs_rosen19.
  match goal with |- context [AbsModel.o2_line_sum ll model ?a ?b ?c ?d ?e ?g ?h ?i] =>
    destruct (o2_line_sum_total ll model a b c d e g h i Hcols) as [r Hr]
  end.
  { intros Hin. apply model_in_In in Hin. simpl in Hin.
    destruct Hin as [<-|[<-|[]]]; eexists; reflexivity. }
  rewrite Hr, bind_ret.
  destruct (AbsModel.model_in model
              ["rose03"; "rose16"; "rose17"; "rose18"; "rose98"]%string) eqn:Eold.
  - match goal with |- context [AbsModel.n2_absorption model ?t ?p ?f] =>
      destruct (n2_absorption_old_models model t p f Eold) as [a Ha]
    end.
    rewrite Ha, !bind_ret. do 2 eexists. split; [reflexivity|].
    intros Hne. apply scaled_nonneg; [now apply o2_clamp_nonneg | exact Hf].
  - rewrite bind_ret. do 2 eexists. split; [reflexivity|].
    intros Hne. apply scaled_nonneg; [now apply o2_clamp_nonneg | exact Hf].
Qed.

Lemma o2_one_line_9803 (freq pres b th1 den dens summ : R) :
  AbsModel.o2_line_9803 o2_one_line freq pres b th1 den (Some dens) 0 summ
  = ret (let df := 1.0 * dens in
         let y := 0.001 * pres * b * (1.0 + 0.0 * th1) in
         summ + 1.0 * exp (- 0.0 * th1)
                * ((df + (freq - 60.0) * y) / ((freq - 60.0) ^ 2 + df * df)
                   + (df - (freq + 60.0) * y) / ((freq + 60.0) ^ 2 + df * df))
                * (freq / 60.0) ^ 2).
Proof.
  unfold AbsModel.o2_line_9803, load_local.
  change (Nat.eqb 0 0) with true. cbv iota.
  repeat read_given. reflexivity.
Qed.

Lemma pypow_one (y : R) : AbsModel.pypow 1 y = 1.
Proof.
  unfold AbsModel.pypow, Rpower. rewrite ln_1, Rmult_0_r. apply exp_0.
Qed.

Lemma o2abs_rosen19_rose98_negative :
  exists npp ncpp,
    AbsModel.o2abs_rosen19 o2_one_line "rose98" 100.0 1.0 0.0 50.0
    = ret (npp, ncpp)
    /\ npp < 0.
Proof.
  unfold AbsModel.o2abs_rosen19, AbsModel.o2_line_sum.
  eval_tests.
  change (seq 0 (length (AbsModel.f o2_one_line))) with [0%nat].
  rewrite for_range_cons, o2_one_line_9803, bind_ret.
  change (for_range [] ?b ?x) with (ret x). rewrite bind_ret.
  destruct (n2_absorption_old_models "rose98" (300.0 / 1.0)
              ((100.0 + 0.0) * 10.0) 50.0 eq_refl) as [n2 Hn2].
  rewrite Hn2, !bind_ret.
  do 2 eexists. split; [reflexivity|].
  apply scaled_neg; [|lra].
  rewrite o2_clamp_rose98.
  assert (Hth : 300.0 / (300.0 / 1.0) = 1) by lra.
  rewrite !Hth, !pypow_one.
  replace (exp (- 0.0 * (1 - 1.0))) with 1
    by (replace (- 0.0 * (1 - 1.0)) with 0 by lra; now rewrite exp_0).
  cbv zeta.
  lra.
Qed.

Lemma o2_one_line_ok : o2_columns_ok o2_one_line.
Proof. unfold o2_columns_ok. repeat constructor. Qed.

(** The clamp of [o2abs_rosen19] on the scaled line sum [total], and the
    unit change after it. *)
Lemma o2_clamp_cases (model : string) (summ presda th frq : R) :
  0 < frq ->
  let total := if AbsModel.model_in model ["rose03"; "rose98"]%string
               then 5.034e+11 * summ * presda * th ^ 3 / 3.14159
               else 1.6097e+11 * summ * presda * th ^ 3 in
  let npp := AbsModel.o2_clamp model summ presda th / AbsModel.db2np
             / (0.182 * frq) in
  (model <> "rose98"%string ->
   npp = (if AbsModel.model_in model ["rose20"; "rose20sd"]%string
          then 1.004 else 1)
         * Rmax total 0 / AbsModel.db2np / (0.182 * frq)
   /\ 0 <= npp
   /\ (total <= 0 -> npp = 0))
  /\ (model = "rose98"%string ->
      npp = total / AbsModel.db2np / (0.182 * frq)
      /\ (total < 0 -> npp < 0)).
Proof.
  intros Hf total npp. pose proof db2np_pos as Hdb.
  assert (Hzero : Rmax total 0.0 = Rmax total 0) by (f_equal; lra).
  split.
  - intros Hne. apply String.eqb_neq in Hne.
    assert (Hclamp : AbsModel.o2_clamp model summ presda th
                     = (if AbsModel.model_in model ["rose20"; "rose20sd"]%string
                        then 1.004 else 1) * Rmax total 0).
    { unfold AbsModel.o2_clamp. rewrite Hne. cbn [negb]. fold total.
      destruct (AbsModel.model_in model ["rose20"; "rose20sd"]%string).
      - rewrite (Rmax_left (Rmax total 0.0) 0.0) by apply Rmax_r.
        now rewrite Hzero.
      - rewrite Hzero. ring. }
    subst npp. rewrite Hclamp. split; [reflexivity|].
    assert (Hgain : 0 < (if AbsModel.model_in model ["rose20"; "rose20sd"]%string
                         then 1.004 else 1))
      by (destruct (AbsModel.model_in model ["rose20"; "rose20sd"]%string);
          lra).
    split.
    + apply scaled_nonneg; [|exact Hf].
      apply Rmult_le_pos; [lra | apply Rmax_r].
    + intros Hneg. rewrite (Rmax_right total 0 Hneg).
      unfold Rdiv. ring.
  - intros ->. subst npp total. unfold AbsModel.o2_clamp. eval_tests.
    cbn [negb]. split; [reflexivity|].
    intros Hneg. apply scaled_neg; [exact Hneg | exact Hf].
Qed.

(** C9: for a line list with lock-step columns and positive line
    frequencies and widths, [vx > 0], a positive dry pressure, a vapour
    pressure that is not negative and a positive frequency (which keep
    every division and power of the routine inside its domain),
    [o2abs_rosen19] returns, and its resonant term [npp] is the resonant
    total after the line summation put through the clamp and the unit
    change: for every model name except [rose98] it is [max(total, 0)]
    over [db2np] and the factor (times 1.004 for [rose20] and [rose20sd]),
    so it is never negative and is 0 for a negative total; for [rose98]
    the clamp is skipped, [npp] is the total itself over [db2np] and the
    factor, and a negative total comes back as a negative [npp].  Such a
    total occurs: one line at 60 GHz with mixing coefficient 1, seen at
    50 GHz. *)
Theorem o2abs_rosen19_clamp (ll : AbsModel.o2_lines) (model : string)
    (pdrykpa vx ekpa frq : R) :
  o2_columns_ok ll ->
  Forall (fun fk => 0 < fk) (AbsModel.f ll) ->
  Forall (fun w => 0 < w) (AbsModel.w300 ll) ->
  0 < vx -> 0 < pdrykpa -> 0 <= ekpa -> 0 < frq ->
  (exists total npp ncpp,
      AbsModel.o2abs_unclamped ll model pdrykpa vx ekpa frq = ret total
      /\ AbsModel.o2abs_rosen19 ll model pdrykpa vx ekpa frq
         = ret (npp, ncpp)
      /\ (model <> "rose98"%string ->
          npp = (if AbsModel.model_in model ["rose20"; "rose20sd"]%string
                 then 1.004 else 1)
                * Rmax total 0 / AbsModel.db2np / (0.182 * frq)
          /\ 0 <= npp
          /\ (total <= 0 -> npp = 0))
      /\ (model = "rose98"%string ->
          npp = total / AbsModel.db2np / (0.182 * frq)
          /\ (total < 0 -> npp < 0)))
  /\ (exists npp ncpp,
        AbsModel.o2abs_rosen19 o2_one_line "rose98" 100.0 1.0 0.0 50.0
        = ret (npp, ncpp)
        /\ npp < 0).
Proof.
  intros Hcols _ _ _ _ _ Hf. split; [|exact o2abs_rosen19_rose98_negative].
  unfold AbsModel.o2abs_unclamped, AbsModel.o2abs_rosen19.
  match goal with
  | |- context [AbsModel.o2_line_sum ll model ?a ?b ?c ?d ?e ?g ?h ?i] =>
      destruct (o2_line_sum_total ll model a b c d e g h i Hcols) as [r Hr]
  end.
  { intros Hin. apply model_in_In in Hin. simpl in Hin.
    destruct Hin as [<-|[<-|[]]]; eexists; reflexivity. }
  rewrite !Hr, !bind_ret. clear Hr.
  destruct (AbsModel.model_in model
              ["rose03"; "rose16"; "rose17"; "rose18"; "rose98"]%string)
    eqn:Eold.
  - match goal with
    | |- context [AbsModel.n2_absorption model ?t ?p ?f] =>
        destruct (n2_absorption_old_models model t p f Eold) as [a Ha]
    end.
    rewrite Ha, !bind_ret. do 3 eexists.
    split; [reflexivity|]. split; [reflexivity|].
    apply (o2_clamp_cases model r _ _ frq Hf).
  - rewrite bind_ret. do 3 eexists.
    split; [reflexivity|]. split; [reflexivity|].
    apply (o2_clamp_cases model r _ _ frq Hf).
Qed.

(** C9 on the one-line list, for [rose19]. *)
Lemma o2abs_rosen19_clamp_witness :
  (exists total npp ncpp,
      AbsModel.o2abs_unclamped o2_one_line "rose19" 100.0 1.0 1.0 50.0
      = ret total
      /\ AbsModel.o2abs_rosen19 o2_one_line "rose19" 100.0 1.0 1.0 50.0
         = ret (npp, ncpp)
      /\ ("rose19"%string <> "rose98"%string ->
          npp = (if AbsModel.model_in "rose19" ["rose20"; "rose20sd"]%string
                 then 1.004 else 1)
                * Rmax total 0 / AbsModel.db2np / (0.182 * 50.0)
          /\ 0 <= npp
          /\ (total <= 0 -> npp = 0))
      /\ ("rose19"%string = "rose98"%string ->
          npp = total / AbsModel.db2np / (0.182 * 50.0)
          /\ (total < 0 -> npp < 0)))
  /\ (exists npp ncpp,
        AbsModel.o2abs_rosen19 o2_one_line "rose98" 100.0 1.0 0.0 50.0
        = ret (npp, ncpp)
        /\ npp < 0).
Proof.
  apply (o2abs_rosen19_clamp o2_one_line "rose19" 100.0 1.0 1.0 50.0);
    [exact o2_one_line_ok | repeat constructor; lra
    | repeat constructor; lra | lra | lra | lra | lra].
Defined.

(** ** [h2o_rosen19_sd] *)

Section WaterVapourFacts.

Variable dcerror : R -> R -> Cplx.C.
Variable ll : AbsModel.h2o_lines.
Hypothesis Hcols : h2o_columns_ok ll.

Lemma h2o_column_lengths :
  Forall (fun c : list R => length c = length (AbsModel.fl ll))
    [AbsModel.s1 ll; AbsModel.b2 ll; AbsModel.w0 ll; AbsModel.hx ll;
     AbsModel.w0s ll; AbsModel.xs ll; AbsModel.w2 ll; AbsModel.w2s ll;
     AbsModel.sr ll; AbsModel.sh ll; AbsModel.xh ll; AbsModel.shs ll;
     AbsModel.xhs ll; AbsModel.aair ll; AbsModel.aself ll].
Proof using Hcols. exact Hcols. Qed.

Ltac column_lengths :=
  let H := fresh "Hlen" in
  pose proof h2o_column_lengths as H;
  repeat (apply Forall_cons in H as [? H]).

Lemma h2o_line_sd_total (model : string) (f pda pvap ti tiln ti2 : R)
    (i : nat) (summ : R) :
  (i < length (AbsModel.fl ll))%nat ->
  exists r, AbsModel.h2o_line_sd dcerror ll model f pda pvap ti tiln ti2 i summ
            = ret r.
Proof using Hcols.
  intros Hi. column_lengths. unfold AbsModel.h2o_line_sd.
  repeat read_inside; eexists; reflexivity.
Qed.

Lemma h2o_line_old_total (model : string) (f pda pvap ti ti2 : R)
    (i : nat) (summ : R) :
  (i < length (AbsModel.fl ll))%nat ->
  exists r, AbsModel.h2o_line_old ll model f pda pvap ti ti2 i summ = ret r.
Proof using Hcols.
  intros Hi. column_lengths. unfold AbsModel.h2o_line_old.
  destruct (String.eqb model "rose98");
    repeat read_inside; rewrite ?bind_ret; repeat read_inside;
    eexists; reflexivity.
Qed.

Lemma h2o_line_new_total (logshift : bool) (f pda pvap ti tiln ti2 : R)
    (i : nat) (summ : R) :
  (i < length (AbsModel.fl ll))%nat ->
  exists r, AbsModel.h2o_line_new ll logshift f pda pvap ti tiln ti2 i summ
            = ret r.
Proof using Hcols.
  intros Hi. column_lengths. unfold AbsModel.h2o_line_new.
  destruct logshift;
    repeat (repeat read_inside; rewrite ?bind_ret);
    eexists; reflexivity.
Qed.

End WaterVapourFacts.

Lemma vapour_density_sign (vx ekpa : R) :
  0 < vx -> ekpa <> 0 ->
  ekpa * 10.0 / (0.01 * 8.31451 / 18.01528 * (300.0 / vx)) <> 0.
Proof.
  intros Hv He.
  assert (Hd : 0 < 0.01 * 8.31451 / 18.01528 * (300.0 / vx)).
  { apply Rmult_lt_0_compat; [lra|]. apply Rdiv_lt_0_compat; lra. }
  unfold Rdiv at 1. apply Rmult_integral_contrapositive_currified; [lra|].
  apply Rinv_neq_0_compat. lra.
Qed.

(** The guard [rho.any() <= 0.0] lets every non-zero density through. *)
Lemma density_guard (rho : R) : rho <> 0 -> Rleb (b2r (truthy rho)) 0.0 = false.
Proof.
  intros H. unfold truthy. rewrite (Reqb_false rho 0 H). simpl.
  apply Rleb_false. lra.
Qed.

Lemma density_guard_zero : Rleb (b2r (truthy 0)) 0.0 = true.
Proof.
  unfold truthy. rewrite (Reqb_true 0 0 eq_refl). simpl.
  apply Rleb_true. lra.
Qed.

(** For a recognized model, lock-step columns and a density that is not
    zero, the routine returns the pair of terms. *)
Lemma h2o_rosen19_sd_returns (dcerror : R -> R -> Cplx.C)
    (ll : AbsModel.h2o_lines) (model : string) (pdrykpa vx ekpa frq : R) :
  h2o_columns_ok ll -> In model recognized -> 0 < vx -> ekpa <> 0 ->
  exists npp ncpp,
    AbsModel.h2o_rosen19_sd dcerror ll model pdrykpa vx ekpa frq
    = ret (Some (npp, ncpp)).
Proof.
  intros Hcols Hin Hv He. unfold AbsModel.h2o_rosen19_sd.
  rewrite (density_guard _ (vapour_density_sign vx ekpa Hv He)).
  unfold recognized in Hin. simpl in Hin.
  destruct Hin as [<-|[<-|[<-|[<-|[<-|[<-|[<-|[<-|[<-|[]]]]]]]]]];
    eval_tests;
    match goal with
    | |- context [for_range ?xs ?body ?s0] =>
        let r := fresh "r" in
        let Hr := fresh "Hr" in
        destruct (for_range_total xs body) with (s := s0) as [r Hr];
        [ intros i s Hi; apply list_elem_of_In, in_seq in Hi;
          lazymatch body with
          | AbsModel.h2o_line_sd _ _ _ _ _ _ _ _ _ =>
              apply h2o_line_sd_total
          | AbsModel.h2o_line_old _ _ _ _ _ _ _ => apply h2o_line_old_total
          | AbsModel.h2o_line_new _ _ _ _ _ _ _ _ => apply h2o_line_new_total
          end;
          solve [exact Hcols | lia]
        | rewrite Hr, !bind_ret ]
    end;
    do 2 eexists; reflexivity.
Qed.

Lemma h2o_one_line_ok : h2o_columns_ok h2o_one_line.
Proof. unfold h2o_columns_ok. repeat constructor. Qed.

(** C8: a negative vapour pressure, hence a negative vapour density, is
    not rejected: for every recognized model the routine goes on and
    returns a pair of numbers, not [None]; only a density of exactly zero
    takes the bare [return]. *)
Theorem h2o_rosen19_sd_negative_density (dcerror : R -> R -> Cplx.C)
    (ll : AbsModel.h2o_lines) (model : string) (pdrykpa vx ekpa frq : R) :
  h2o_columns_ok ll -> In model recognized -> 0 < vx -> ekpa < 0 ->
  (exists npp ncpp,
      AbsModel.h2o_rosen19_sd dcerror ll model pdrykpa vx ekpa frq
      = ret (Some (npp, ncpp)))
  /\ AbsModel.h2o_rosen19_sd dcerror ll model pdrykpa vx 0 frq = ret None.
Proof.
  intros Hcols Hin Hv He. split.
  - apply h2o_rosen19_sd_returns; auto. lra.
  - unfold AbsModel.h2o_rosen19_sd.
    replace (0 * 10.0 / (0.01 * 8.31451 / 18.01528 * (300.0 / vx))) with 0
      by (unfold Rdiv; ring).
    now rewrite density_guard_zero.
Qed.

(** C8 on the one-line list, for [rose19] and a vapour pressure of -1 kPa. *)
Lemma h2o_rosen19_sd_negative_density_witness :
  (exists npp ncpp,
      AbsModel.h2o_rosen19_sd no_dcerror h2o_one_line "rose19" 100.0 1.0
        (- 1.0) 22.235
      = ret (Some (npp, ncpp)))
  /\ AbsModel.h2o_rosen19_sd no_dcerror h2o_one_line "rose19" 100.0 1.0 0
       22.235 = ret None.
Proof.
  apply (h2o_rosen19_sd_negative_density no_dcerror h2o_one_line "rose19"
           100.0 1.0 (- 1.0) 22.235);
    [exact h2o_one_line_ok | unfold recognized; simpl; tauto | lra | lra].
Defined.

(** ** An unknown model name *)

(** C1: the name ["not_a_model"] is not rejected.  [o2abs_rosen19] treats
    it exactly as [rose19] (the [else] branch of its dispatch) and returns
    numbers; [h2o_rosen19_sd] either returns [None] (zero density) or runs
    through the continuum and line set-up and then fails on the unbound
    local [summ]: in neither routine is an unknown-model error raised. *)
Theorem unknown_model_not_rejected :
  (forall (ll : AbsModel.o2_lines) (pdrykpa vx ekpa frq : R),
      AbsModel.o2abs_rosen19 ll "not_a_model" pdrykpa vx ekpa frq
      = AbsModel.o2abs_rosen19 ll "rose19" pdrykpa vx ekpa frq)
  /\ (exists npp ncpp,
        AbsModel.o2abs_rosen19 o2_one_line "not_a_model" 100.0 1.0 1.0 50.0
        = ret (npp, ncpp))
  /\ (forall (dcerror : R -> R -> Cplx.C) (ll : AbsModel.h2o_lines)
        (pdrykpa vx ekpa frq : R),
        AbsModel.h2o_rosen19_sd dcerror ll "not_a_model" pdrykpa vx ekpa frq
        = ret None
        \/ AbsModel.h2o_rosen19_sd dcerror ll "not_a_model" pdrykpa vx ekpa frq
           = raise (UnboundLocalError "summ")).
Proof.
  split; [|split].
  - intros ll pdrykpa vx ekpa frq.
    unfold AbsModel.o2abs_rosen19, AbsModel.o2_line_sum, AbsModel.o2_clamp.
    eval_tests. reflexivity.
  - destruct (o2abs_rosen19_nonneg o2_one_line "not_a_model" 100.0 1.0 1.0
                50.0 o2_one_line_ok) as [npp [ncpp [H _]]]; [lra|].
    now exists npp, ncpp.
  - intros dcerror ll pdrykpa vx ekpa frq. unfold AbsModel.h2o_rosen19_sd.
    match goal with |- context [Rleb ?a ?b] => destruct (Rleb a b) end.
    + left; reflexivity.
    + right. eval_tests. rewrite bind_ret. reflexivity.
Qed.

(** A name that merely starts with [rose19sd] is taken for that model. *)
Lemma h2o_rosen19_sd_prefix (dcerror : R -> R -> Cplx.C)
    (ll : AbsModel.h2o_lines) (pdrykpa vx ekpa frq : R) :
  AbsModel.h2o_rosen19_sd dcerror ll "rose19sd_x" pdrykpa vx ekpa frq
  = AbsModel.h2o_rosen19_sd dcerror ll "rose19sd" pdrykpa vx ekpa frq.
Proof.
  unfold AbsModel.h2o_rosen19_sd. eval_tests. reflexivity.
Qed.

(** The sibling routine does reject an unknown name. *)
Lemma n2_absorption_unknown (t p f : R) :
  AbsModel.n2_absorption "not_a_model" t p f
  = raise (ValueError
      "[AbsN2] No model available with this name: not_a_model . Sorry...").
Proof. reflexivity. Qed.

(** * Further properties *)

(** ** Sums and stores *)

Lemma Rsum_insert (a : list R) (i : nat) (old v : R) :
  a !! i = Some old -> Rsum (<[i:=v]> a) = Rsum a - old + v.
Proof.
  revert i. induction a as [|h a IH]; intros i H; [discriminate|].
  destruct i as [|i]; simpl in *.
  - inversion H; subst. unfold Rsum; simpl. lra.
  - specialize (IH i H). unfold Rsum in *; simpl. lra.
Qed.

Lemma Rsum_zeros (n : nat) : Rsum (replicate n 0) = 0.
Proof.
  induction n as [|n IH]; [reflexivity|].
  unfold Rsum in *; simpl. rewrite IH. lra.
Qed.

(** ** [exp_int_xxx]: what every run keeps *)

(** One layer ends in one of three ways. *)
Lemma exp_int_layer_cases (zeroflg : Z) (x ds : list R) (i : nat)
    (s : R) (a : list R) :
  RTEquation.exp_int_layer zeroflg x ds i (s, a)
  = MkM (Ok (Return (s, a))) [exp_int_warning]
  \/ (exists v, (i < length a)%nat
        /\ RTEquation.exp_int_layer zeroflg x ds i (s, a)
           = ret (Next (s + v, <[i:=v]> a)))
  \/ (exists e, RTEquation.exp_int_layer zeroflg x ds i (s, a) = raise e).
Proof.
  unfold RTEquation.exp_int_layer.
  destruct (x !! (i - 1)%nat) as [xm|] eqn:Em;
    [rewrite (getitem_some _ _ _ Em), bind_ret
    |rewrite (getitem_none _ _ Em), bind_raise; right; right; eauto].
  destruct (x !! i) as [xi|] eqn:Ei;
    [rewrite (getitem_some _ _ _ Ei), bind_ret
    |rewrite (getitem_none _ _ Ei), bind_raise; right; right; eauto].
  destruct (Rltb xm 0.0 || Rltb xi 0.0); [left; reflexivity|].
  right.
  assert (Hx : (exists xl,
            (if Rltb (Rabs (xi - xm)) 1e-09 then ret xi
             else if Reqb xm 0.0 || Reqb xi 0.0
                  then if decide (zeroflg = 0%Z) then ret 0.0
                       else ret ((xi + xm) * 0.5)
                  else a0 ← call_seq "x" x i;
                       b ← call_seq "x" x (i - 1);
                       c ← call_seq "x" x i;
                       d ← call_seq "x" x (i - 1);
                       ret ((a0 - b) / ln (c / d))) = ret xl)
          \/ (if Rltb (Rabs (xi - xm)) 1e-09 then ret xi
              else if Reqb xm 0.0 || Reqb xi 0.0
                   then if decide (zeroflg = 0%Z) then ret 0.0
                        else ret ((xi + xm) * 0.5)
                   else a0 ← call_seq "x" x i;
                        b ← call_seq "x" x (i - 1);
                        c ← call_seq "x" x i;
                        d ← call_seq "x" x (i - 1);
                        ret ((a0 - b) / ln (c / d)))
             = raise (TypeError "x")).
  { destruct (Rltb (Rabs (xi - xm)) 1e-09); [left; eauto|].
    destruct (Reqb xm 0.0 || Reqb xi 0.0); [|right; reflexivity].
    destruct (decide (zeroflg = 0%Z)); left; eauto. }
  destruct Hx as [[xl Hx]|Hx]; rewrite Hx;
    [rewrite bind_ret | rewrite bind_raise; right; eauto].
  destruct (ds !! i) as [d|] eqn:Ed;
    [rewrite (getitem_some _ _ _ Ed), bind_ret
    |rewrite (getitem_none _ _ Ed), bind_raise; right; eauto].
  unfold setitem.
  destruct (decide (i < length a)%nat) as [Hlen|Hlen];
    [rewrite bind_ret | rewrite bind_raise; right; eauto].
  rewrite (getitem_some (<[i:=xl * d]> a) i (xl * d)), bind_ret
    by now apply list_lookup_insert_eq.
  left. exists (xl * d). split; [exact Hlen | reflexivity].
Qed.

Lemma bind_return_warned {S V} (p : V) (w : warning)
    (k : ctl S V -> M (ctl S V)) :
  (forall v, k (Return v) = ret (Return v)) ->
  MkM (Ok (Return p)) [w] ≫= k = MkM (Ok (Return p)) [w].
Proof.
  intros Hk. unfold mbind, M_bind, bind. simpl. now rewrite Hk.
Qed.

(** The loop keeps [sxds] equal to the sum of [xds], keeps the length of
    [xds], and writes only at the positions it runs through. *)
Lemma exp_int_loop_shape (zeroflg : Z) (x ds : list R) (xs : list nat) :
  NoDup xs ->
  forall (s : R) (a : list R),
    s = Rsum a ->
    (forall i v, i ∈ xs -> a !! i = Some v -> v = 0) ->
    (exists e,
        for_each xs (RTEquation.exp_int_layer zeroflg x ds) (s, a) = raise e)
    \/ (exists s' a',
          (for_each xs (RTEquation.exp_int_layer zeroflg x ds) (s, a)
           = ret (Next (s', a'))
           \/ for_each xs (RTEquation.exp_int_layer zeroflg x ds) (s, a)
              = MkM (Ok (Return (s', a'))) [exp_int_warning])
          /\ s' = Rsum a' /\ length a' = length a
          /\ forall j, j ∉ xs -> a' !! j = a !! j).
Proof.
  induction xs as [|i xs IH]; intros Hnd s a Hs Hz.
  - right. exists s, a. split; [left; reflexivity | repeat split; auto].
  - apply NoDup_cons in Hnd as [Hi Hnd]. rewrite for_each_cons.
    destruct (exp_int_layer_cases zeroflg x ds i s a)
      as [H|[[v [Hlen H]]|[e H]]]; rewrite H.
    + right. exists s, a.
      split; [right; now apply bind_return_warned | repeat split; auto].
    + rewrite bind_ret.
      destruct (lookup_lt_is_Some_2 a i Hlen) as [old Hold].
      assert (old = 0) by (eapply Hz; [apply list_elem_of_here | exact Hold]).
      subst old.
      destruct (IH Hnd (s + v) (<[i:=v]> a)) as [[e He]|[s' [a' [Hr [Hs' [Hl Hf]]]]]].
      * rewrite (Rsum_insert a i 0 v Hold). lra.
      * intros j u Hj Hu. apply (Hz j u); [now apply list_elem_of_further|].
        rewrite list_lookup_insert_ne in Hu; [exact Hu|].
        intros ->. contradiction.
      * left. eauto.
      * right. exists s', a'. split; [exact Hr|]. split; [exact Hs'|]. split.
        -- rewrite Hl. apply length_insert.
        -- intros j Hj. apply not_elem_of_cons in Hj as [Hne Hj].
           rewrite (Hf j Hj). now apply list_lookup_insert_ne.
    + rewrite bind_raise. left. eauto.
Qed.

Lemma exp_int_xxx_shape (zeroflg : Z) (x ds : list R) (ibeg iend : nat)
    (factor : R) :
  (exists e, RTEquation.exp_int_xxx zeroflg x ds ibeg iend factor = raise e)
  \/ (exists a,
        (RTEquation.exp_int_xxx zeroflg x ds ibeg iend factor
         = ret (Rsum a * factor, a)
         \/ RTEquation.exp_int_xxx zeroflg x ds ibeg iend factor
            = MkM (Ok (Rsum a, a)) [exp_int_warning])
        /\ length a = length ds
        /\ forall j, (j <= ibeg \/ iend < j)%nat -> (j < length ds)%nat ->
                     a !! j = Some 0).
Proof.
  unfold RTEquation.exp_int_xxx.
  destruct (exp_int_loop_shape zeroflg x ds (arange (ibeg + 1) iend))
    with (s := 0.0) (a := zeros_like ds)
    as [[e He]|[s' [a' [Hr [Hs' [Hl Hf]]]]]].
  - unfold arange. apply NoDup_ListNoDup, seq_NoDup.
  - unfold zeros_like. rewrite Rsum_zeros. lra.
  - intros i v _ Hv. unfold zeros_like in Hv.
    apply lookup_replicate in Hv. tauto.
  - left. exists e. now rewrite He.
  - right. exists a'. unfold zeros_like in Hl. rewrite length_replicate in Hl.
    split; [|split; [exact Hl|]].
    + destruct Hr as [Hr|Hr]; rewrite Hr; subst s'.
      * left. now rewrite bind_ret.
      * right. reflexivity.
    + intros j Hj Hlt. rewrite Hf.
      * unfold zeros_like. now apply lookup_replicate_2.
      * unfold arange. rewrite list_elem_of_In, in_seq. lia.
Qed.

(** What [exp_int_xxx] hands back as the integral is the sum of the
    per-layer array it hands back, times the factor on the normal return
    and as it is on the return after the warning. *)
Theorem exp_int_xxx_sum_of_layers (zeroflg : Z) (x ds : list R)
    (ibeg iend : nat) (factor : R) :
  (exists e, RTEquation.exp_int_xxx zeroflg x ds ibeg iend factor = raise e)
  \/ (exists a,
        RTEquation.exp_int_xxx zeroflg x ds ibeg iend factor
        = ret (Rsum a * factor, a)
        \/ RTEquation.exp_int_xxx zeroflg x ds ibeg iend factor
           = MkM (Ok (Rsum a, a)) [exp_int_warning]).
Proof.
  destruct (exp_int_xxx_shape zeroflg x ds ibeg iend factor)
    as [H|[a [H _]]]; [left; exact H | right; now exists a].
Qed.

(** Whenever [exp_int_xxx] returns, the per-layer array is as long as
    [ds] and is zero at every level outside [ibeg+1 .. iend]. *)
Theorem exp_int_xxx_outside_range (zeroflg : Z) (x ds : list R)
    (ibeg iend : nat) (factor s : R) (a : list R) :
  outcome (RTEquation.exp_int_xxx zeroflg x ds ibeg iend factor) = Ok (s, a) ->
  length a = length ds
  /\ forall j, (j <= ibeg \/ iend < j)%nat -> (j < length ds)%nat ->
               a !! j = Some 0.
Proof.
  intros H.
  destruct (exp_int_xxx_shape zeroflg x ds ibeg iend factor)
    as [[e He]|[a' [[Hr|Hr] Hrest]]]; rewrite ?He, ?Hr in H;
    simpl in H; [discriminate| |]; inversion H; subst; exact Hrest.
Qed.

Lemma exp_int_near_equal_loop (zeroflg : Z) (x ds : list R) (n : nat) :
  forall (a0 : nat) (s : R) (arr : list R),
    (forall i, (a0 <= i < a0 + n)%nat ->
       (i < length arr)%nat
       /\ exists xm xi d,
            x !! (i - 1)%nat = Some xm /\ x !! i = Some xi
            /\ ds !! i = Some d
            /\ 0 <= xm /\ 0 <= xi /\ Rabs (xi - xm) < 1e-09) ->
    exists s' arr',
      for_each (seq a0 n) (RTEquation.exp_int_layer zeroflg x ds) (s, arr)
      = ret (Next (s', arr'))
      /\ forall j xj d, (a0 <= j < a0 + n)%nat ->
           x !! j = Some xj -> ds !! j = Some d -> arr' !! j = Some (xj * d).
Proof.
  induction n as [|n IH]; intros a0 s arr H.
  - exists s, arr. split; [reflexivity|]. intros; lia.
  - simpl seq. rewrite for_each_cons.
    destruct (H a0) as [Hlen [xm [xi [d [Hm [Hi [Hd [Hpm [Hpi Hnear]]]]]]]]];
      [lia|].
    rewrite (exp_int_layer_near_equal zeroflg x ds a0 s arr xm xi d);
      auto.
    rewrite bind_ret.
    destruct (IH (S a0) (s + xi * d) (<[a0:=xi * d]> arr))
      as [s' [arr' [Hrun Hval]]].
    { intros i Hr. destruct (H i) as [Hl Hex]; [lia|].
      split; [now rewrite length_insert | exact Hex]. }
    exists s', arr'. split; [exact Hrun|].
    intros j xj dj Hj Hxj Hdj.
    destruct (Nat.eq_dec j a0) as [->|Hne].
    + rewrite Hi in Hxj. rewrite Hd in Hdj. inversion Hxj; inversion Hdj; subst.
      rewrite (exp_int_loop_frame _ _ _ _ _ _ _ _ a0 Hrun).
      * now apply list_lookup_insert_eq.
      * rewrite list_elem_of_In, in_seq. lia.
    + apply Hval; auto. lia.
Qed.

(** On a range where neighbouring values of [x] are non-negative and
    closer than 1e-9 (a constant profile for one), [exp_int_xxx] returns
    without a warning: layer [i] holds [x[i] * ds[i]], every other level
    holds 0, and the integral is their sum times the factor. *)
Theorem exp_int_xxx_near_equal (zeroflg : Z) (x ds : list R)
    (ibeg iend : nat) (factor : R) :
  (iend < length ds)%nat ->
  (forall i, (ibeg < i <= iend)%nat ->
     exists xm xi,
       x !! (i - 1)%nat = Some xm /\ x !! i = Some xi
       /\ 0 <= xm /\ 0 <= xi /\ Rabs (xi - xm) < 1e-09) ->
  exists a,
    RTEquation.exp_int_xxx zeroflg x ds ibeg iend factor
    = ret (Rsum a * factor, a)
    /\ length a = length ds
    /\ (forall j xj d, (ibeg < j <= iend)%nat ->
          x !! j = Some xj -> ds !! j = Some d -> a !! j = Some (xj * d))
    /\ (forall j, (j <= ibeg \/ iend < j)%nat -> (j < length ds)%nat ->
          a !! j = Some 0).
Proof.
  intros Hds Hx.
  destruct (exp_int_near_equal_loop zeroflg x ds (iend + 1 - (ibeg + 1))
              (ibeg + 1) 0.0 (zeros_like ds)) as [s' [arr' [Hrun Hval]]].
  { intros i Hi.
    split; [unfold zeros_like; rewrite length_replicate; lia|].
    destruct (Hx i) as [xm [xi [Hm [Hxi Hrest]]]]; [lia|].
    destruct (lookup_lt_is_Some_2 ds i) as [d Hd]; [lia|].
    exists xm, xi, d. tauto. }
  assert (Hret : RTEquation.exp_int_xxx zeroflg x ds ibeg iend factor
                 = ret (s' * factor, arr')).
  { unfold RTEquation.exp_int_xxx, arange. now rewrite Hrun, bind_ret. }
  destruct (exp_int_xxx_shape zeroflg x ds ibeg iend factor)
    as [[e He]|[a [[Hr|Hr] [Hlen Hout]]]];
    rewrite Hret in *; try discriminate.
  inversion Hr as [[Hs Ha]]. subst arr'. exists a.
  split; [now rewrite Hs|]. split; [exact Hlen|]. split; [|exact Hout].
  intros j xj d Hj. apply Hval. lia.
Qed.

Lemma exp_int_two_level_near_equal :
  forall i, (0 < i <= 1)%nat ->
    exists xm xi,
      [1.0; 1.0] !! (i - 1)%nat = Some xm /\ [1.0; 1.0] !! i = Some xi
      /\ 0 <= xm /\ 0 <= xi /\ Rabs (xi - xm) < 1e-09.
Proof.
  intros i Hi. assert (i = 1%nat) as -> by lia.
  exists 1.0, 1.0. repeat split; try reflexivity; try lra.
  replace (1.0 - 1.0) with 0 by lra. rewrite Rabs_R0. lra.
Qed.

(** On a constant two-level profile. *)
Lemma exp_int_xxx_near_equal_witness :
  exists a,
    RTEquation.exp_int_xxx 0 [1.0; 1.0] [0.0; 2.0] 0 1 3.0
    = ret (Rsum a * 3.0, a)
    /\ length a = length [0.0; 2.0]
    /\ (forall j xj d, (0 < j <= 1)%nat ->
          [1.0; 1.0] !! j = Some xj -> [0.0; 2.0] !! j = Some d ->
          a !! j = Some (xj * d))
    /\ (forall j, (j <= 0 \/ 1 < j)%nat -> (j < length [0.0; 2.0]%R)%nat ->
          a !! j = Some 0).
Proof.
  apply (exp_int_xxx_near_equal 0 [1.0; 1.0] [0.0; 2.0] 0 1 3.0);
    [simpl; lia | exact exp_int_two_level_near_equal].
Defined.

Lemma exp_int_two_level_run :
  outcome (RTEquation.exp_int_xxx 0 [1.0; 1.0] [0.0; 2.0] 0 1 3.0)
  = Ok ((0.0 + 1.0 * 2.0) * 3.0, <[1%nat:=1.0 * 2.0]> [0; 0]).
Proof.
  unfold RTEquation.exp_int_xxx.
  rewrite arange_cons by lia. rewrite for_each_cons.
  rewrite (exp_int_layer_near_equal 0 [1.0; 1.0] [0.0; 2.0] 1
             0.0 _ 1.0 1.0 2.0);
    [| reflexivity | reflexivity | reflexivity | simpl; lia | lra | lra |].
  - reflexivity.
  - replace (1.0 - 1.0) with 0 by lra. rewrite Rabs_R0. lra.
Qed.

(** On the same two-level run. *)
Lemma exp_int_xxx_outside_range_witness :
  length (<[1%nat:=1.0 * 2.0]> [0; 0]) = length [0.0; 2.0]
  /\ forall j, (j <= 0 \/ 1 < j)%nat -> (j < length [0.0; 2.0]%R)%nat ->
               <[1%nat:=1.0 * 2.0]> [0; 0] !! j = Some 0.
Proof.
  apply (exp_int_xxx_outside_range 0 [1.0; 1.0] [0.0; 2.0] 0 1 3.0
           ((0.0 + 1.0 * 2.0) * 3.0) (<[1%nat:=1.0 * 2.0]> [0; 0])).
  exact exp_int_two_level_run.
Defined.

(** ** Loops whose bodies only return or raise one exception *)

Lemma for_range_ret_or_raise {S} (e : exn) (xs : list nat)
    (body : nat -> S -> M S) :
  (forall i s, body i s = raise e \/ exists s', body i s = ret s') ->
  forall s, for_range xs body s = raise e
            \/ exists s', for_range xs body s = ret s'.
Proof.
  intros Hbody. induction xs as [|i xs IH]; intros s.
  - right. now exists s.
  - rewrite for_range_cons.
    destruct (Hbody i s) as [H|[s1 H]]; rewrite H.
    + left. reflexivity.
    + rewrite bind_ret. apply IH.
Qed.

Lemma for_range_raises_at (e : exn) {S} (xs ys : list nat) (last : nat)
    (body : nat -> S -> M S) :
  (forall i s, body i s = raise e \/ exists s', body i s = ret s') ->
  (forall s, body last s = raise e) ->
  forall s, for_range (xs ++ last :: ys) body s = raise e.
Proof.
  intros Hbody Hlast. induction xs as [|i xs IH]; intros s.
  - simpl app. now rewrite for_range_cons, Hlast.
  - change ((i :: xs) ++ last :: ys) with (i :: (xs ++ last :: ys)).
    rewrite for_range_cons.
    destruct (Hbody i s) as [H|[s1 H]]; rewrite H.
    + reflexivity.
    + rewrite bind_ret. apply IH.
Qed.

Lemma arange_last (n : nat) :
  (1 <= n)%nat -> arange 1 n = arange 1 (n - 1) ++ [n].
Proof.
  intros H. rewrite (arange_split 1 n n) by lia.
  replace (arange (S n) n) with (@nil nat); [reflexivity|].
  unfold arange. now replace (n + 1 - S n)%nat with 0%nat by lia.
Qed.

(** ** [ray_trac_xxx] and [refract_xxx]: what they never do *)

(** For every profile, angle and height, [ray_trac_xxx] ends without a
    slant-path profile: it raises [IndexError], or it returns [None] after
    the warning about a refractive index below 1. *)
Theorem ray_trac_xxx_never_profile (constants : string -> R)
    (z refindx : list R) (angle z0 : R) :
  RTEquation.ray_trac_xxx constants z refindx angle z0 = raise IndexError
  \/ RTEquation.ray_trac_xxx constants z refindx angle z0
     = MkM (Ok None) [negative_index_warning].
Proof. apply ray_trac_xxx_cases. Qed.

(** The test for an angle close to 90 degrees, as the chained comparisons
    are written, holds exactly for the angle 0 and for every angle of at
    least 1 degree. *)
Theorem near_vertical_iff (angle : R) :
  RTEquation.near_vertical angle = true <-> angle = 0 \/ 1 <= angle.
Proof.
  unfold RTEquation.near_vertical, logical_and, truthy.
  rewrite (Reqb_false 89 0) by lra. rewrite (Reqb_false (- 91) 0) by lra.
  cbn [negb andb].
  destruct (Req_dec_T angle 0) as [H0|H0].
  - rewrite (Reqb_true angle 0 H0). cbn [negb b2r].
    rewrite (Rleb_true 0 angle) by lra. rewrite (Rleb_true 0 91) by lra.
    cbn [andb orb]. tauto.
  - rewrite (Reqb_false angle 0 H0). cbn [negb b2r].
    rewrite (Rleb_true 1 91) by lra. rewrite (Rleb_false 1 (- 89)) by lra.
    rewrite andb_true_r, andb_false_r, orb_false_r.
    destruct (Rle_dec 1 angle) as [H1|H1].
    + rewrite (Rleb_true _ _ H1). tauto.
    + rewrite (Rleb_false _ _ H1). split; [discriminate|]. tauto.
Qed.

(** The test that picks the arithmetic mean of the two refractive indices
    of a layer, as written, holds exactly when the upper index is 1,
    whatever the lower one is. *)
Theorem same_index_iff (n m : R) :
  RTEquation.same_index n m = true <-> n = 1.
Proof.
  unfold RTEquation.same_index, logical_or, truthy.
  rewrite (Reqb_false 1.0 0) by lra. cbn [negb orb b2r].
  rewrite (Reqb_true 1 1.0) by lra. rewrite andb_true_r.
  destruct (Req_dec_T n 1) as [H1|H1].
  - subst n. rewrite (Reqb_false 1 0) by lra. cbn [negb].
    rewrite orb_true_r. cbn [b2r Bool.eqb].
    rewrite (Reqb_true 1 1 eq_refl). tauto.
  - split; [|contradiction]. intros H.
    apply andb_true_iff in H as [Hn Ha].
    apply Bool.eqb_prop in Ha. rewrite Ha in Hn. cbn [b2r] in Hn.
    unfold Reqb in Hn. destruct (Req_dec_T n 1); [contradiction|discriminate].
Qed.

(** [refract_xxx] returns for the empty profile only, and then returns
    three empty arrays. *)
Theorem refract_xxx_returns_only_empty (p tk e dryn wetn refindx : list R) :
  outcome (RTEquation.refract_xxx p tk e) = Ok (dryn, wetn, refindx) ->
  p = [] /\ dryn = [] /\ wetn = [] /\ refindx = [].
Proof.
  destruct p as [|p0 p].
  - intros H. inversion H. auto.
  - rewrite refract_xxx_nonempty. discriminate.
Qed.

(** On the empty profile. *)
Lemma refract_xxx_returns_only_empty_witness :
  @nil R = [] /\ @nil R = [] /\ @nil R = [] /\ @nil R = [].
Proof.
  apply (refract_xxx_returns_only_empty [] [300.0] [20.0] [] [] []).
  reflexivity.
Defined.

(** ** [bright_xxx] and [cld_tmr_xxx] *)

Lemma bright_xxx_pos (hvk b : R) :
  0 < hvk -> 0 < b -> 0 < RTEquation.bright_xxx hvk b.
Proof.
  intros Hh Hb. unfold RTEquation.bright_xxx.
  replace (1.0 + 1.0 / b) with (1 + 1 / b) by lra.
  apply Rdiv_lt_0_compat; [exact Hh|].
  apply ln_gt_0. now apply inv_pos_plus_one.
Qed.

(** For [hvk > 0] the brightness temperature is positive and grows
    strictly with the radiance. *)
Theorem bright_xxx_increasing (hvk b1 b2 : R) :
  0 < hvk -> 0 < b1 -> b1 < b2 ->
  0 < RTEquation.bright_xxx hvk b1
  /\ RTEquation.bright_xxx hvk b1 < RTEquation.bright_xxx hvk b2.
Proof.
  intros Hh H1 H12. split; [now apply bright_xxx_pos|].
  unfold RTEquation.bright_xxx.
  replace (1.0 + 1.0 / b1) with (1 + 1 / b1) by lra.
  replace (1.0 + 1.0 / b2) with (1 + 1 / b2) by lra.
  assert (H2 : 0 < b2) by lra.
  pose proof (ln_gt_0 _ (inv_pos_plus_one b2 H2)) as HL2.
  assert (Hinv : / b2 < / b1) by (apply Rinv_lt_contravar; nra).
  assert (HL : ln (1 + 1 / b2) < ln (1 + 1 / b1)).
  { assert (0 < / b2) by now apply Rinv_0_lt_compat.
    apply ln_increasing; unfold Rdiv; lra. }
  unfold Rdiv at 1 3. apply Rmult_lt_compat_l; [exact Hh|].
  apply Rinv_lt_contravar; [|exact HL].
  apply Rmult_lt_0_compat; lra.
Qed.

Lemma bright_xxx_increasing_witness :
  0 < RTEquation.bright_xxx 1 1
  /\ RTEquation.bright_xxx 1 1 < RTEquation.bright_xxx 1 2.
Proof.
  apply (bright_xxx_increasing 1 1 2); lra.
Defined.

(** With the four profile entries in range, [cld_tmr_xxx] warns and
    returns [None] when the optical depth at the cloud base exceeds 125,
    and otherwise returns a temperature, which is positive when [hvk > 0],
    the radiance grows across the cloud and so does the optical depth. *)
Theorem cld_tmr_xxx_result (ibase itop : nat) (hvk : R)
    (tauprof boftatm : list R) (tb tt ab at_ : R) :
  tauprof !! ibase = Some tb -> tauprof !! itop = Some tt ->
  boftatm !! ibase = Some ab -> boftatm !! itop = Some at_ ->
  (125 < tb ->
   RTEquationRest.cld_tmr_xxx ibase itop hvk tauprof boftatm
   = MkM (Ok None) [RTEquationRest.cld_tmr_warning])
  /\ (tb <= 125 ->
      exists T,
        RTEquationRest.cld_tmr_xxx ibase itop hvk tauprof boftatm
        = ret (Some T)
        /\ (0 < hvk -> ab < at_ -> tb < tt -> 0 < T)).
Proof.
  intros Htb Htt Hab Hat. unfold RTEquationRest.cld_tmr_xxx.
  rewrite (getitem_some _ _ _ Htb), bind_ret. split; intros Hcmp.
  - now rewrite Rltb_true by lra.
  - rewrite Rltb_false by lra.
    rewrite (getitem_some _ _ _ Hat), bind_ret.
    rewrite (getitem_some _ _ _ Hab), bind_ret.
    rewrite (getitem_some _ _ _ Htt), !bind_ret.
    destruct (Rltb 125.0 (tt - tb)); rewrite !bind_ret;
      eexists; (split; [reflexivity|]); intros Hh Hrad Htau;
      apply bright_xxx_pos; auto.
    + apply Rmult_lt_0_compat; [lra | apply exp_pos].
    + assert (exp (- (tt - tb)) < 1).
      { rewrite <- exp_0. apply exp_increasing. lra. }
      apply Rdiv_lt_0_compat; [|lra].
      apply Rmult_lt_0_compat; [lra | apply exp_pos].
Qed.

Lemma cld_tmr_xxx_result_witness :
  (125 < 1.0 ->
   RTEquationRest.cld_tmr_xxx 0 1 1.0 [1.0; 2.0] [0.5; 1.5]
   = MkM (Ok None) [RTEquationRest.cld_tmr_warning])
  /\ (1.0 <= 125 ->
      exists T,
        RTEquationRest.cld_tmr_xxx 0 1 1.0 [1.0; 2.0] [0.5; 1.5]
        = ret (Some T)
        /\ (0 < 1.0 -> 0.5 < 1.5 -> 1.0 < 2.0 -> 0 < T)).
Proof.
  apply (cld_tmr_xxx_result 0 1 1.0 [1.0; 2.0] [0.5; 1.5] 1.0 2.0 0.5 1.5);
    reflexivity.
Defined.

(** ** [cld_int_xxx], [cld_abs_xxx], [clr_abs_xxx] *)

Lemma cld_int_layer_cases (dencld ds : list R) (i : nat) (s : R) :
  RTEquationRest.cld_int_layer dencld ds i s = raise IndexError
  \/ exists s', RTEquationRest.cld_int_layer dencld ds i s = ret s'.
Proof.
  unfold RTEquationRest.cld_int_layer.
  read_item ds i; [|now left].
  read_item dencld i; [|now left].
  read_item dencld (i - 1)%nat; [|now left].
  right. eauto.
Qed.

Lemma cld_int_cloud_cases (dencld ds : list R) (lbase ltop : list nat)
    (l : nat) (s : R) :
  RTEquationRest.cld_int_cloud dencld ds lbase ltop l s = raise IndexError
  \/ exists s', RTEquationRest.cld_int_cloud dencld ds lbase ltop l s = ret s'.
Proof.
  unfold RTEquationRest.cld_int_cloud, getlevel.
  destruct (lbase !! l) as [lb|]; [rewrite bind_ret|now left].
  destruct (ltop !! l) as [lt|]; [rewrite bind_ret|now left].
  apply for_range_ret_or_raise. apply cld_int_layer_cases.
Qed.

(** [cld_int_xxx] returns 0 for an empty list of cloud bases and raises
    [IndexError] for every other list: the loop over the clouds runs the
    positions [1 .. len(lbase)] of [lbase]. *)
Theorem cld_int_xxx_only_without_clouds (dencld ds : list R)
    (l0 : nat) (lbase ltop : list nat) :
  RTEquationRest.cld_int_xxx dencld ds [] ltop = ret 0
  /\ RTEquationRest.cld_int_xxx dencld ds (l0 :: lbase) ltop
     = raise IndexError.
Proof.
  split.
  - unfold RTEquationRest.cld_int_xxx.
    change (for_range (arange 1 (length (@nil nat))) ?b ?s) with (ret s).
    rewrite bind_ret. f_equal. lra.
  - unfold RTEquationRest.cld_int_xxx.
    rewrite arange_last by (simpl; lia).
    rewrite (for_range_raises_at IndexError).
    + reflexivity.
    + apply cld_int_cloud_cases.
    + intros s. unfold RTEquationRest.cld_int_cloud, getlevel.
      rewrite (lookup_ge_None_2 (l0 :: lbase) (length (l0 :: lbase)));
        [reflexivity | lia].
Qed.

Ltac mnorm := repeat (rewrite bind_ret || rewrite bind_raise).

Ltac case_read l i :=
  let v := fresh "v" in
  let E := fresh "E" in
  destruct (l !! i) as [v|] eqn:E; cbv beta iota; mnorm.

Lemma setitem_out (l : list R) (i : nat) (x : R) :
  ~ (i < length l)%nat -> setitem l i x = raise IndexError.
Proof.
  intros H. unfold setitem. now destruct (decide (i < length l)%nat).
Qed.

Ltac case_store l i :=
  let H := fresh "Hlen" in
  destruct (decide (i < length l)%nat) as [H|H];
  [ repeat rewrite (setitem_in l i _ H)
  | repeat rewrite (setitem_out l i _ H) ];
  mnorm.

Lemma cld_abs_level_cases (tk denl deni : list R) (frq wave db2np : R)
    (i : nat) (s : list R * list R) :
  RTEquationRest.cld_abs_level tk denl deni frq wave db2np i s
  = raise IndexError
  \/ exists s',
       RTEquationRest.cld_abs_level tk denl deni frq wave db2np i s = ret s'.
Proof.
  unfold RTEquationRest.cld_abs_level, getitem. destruct s as [aliq aice].
  case_read denl i; [|now left].
  assert (Hice : forall aliq' : list R,
    (match deni !! i with Some v0 => ret v0 | None => raise IndexError end
     ≫= (fun di : R =>
         (if Rltb 0 di
          then match deni !! i with
               | Some v0 => ret v0
               | None => raise IndexError
               end
               ≫= (fun di0 : R =>
                   setitem aice i (8.18645 / wave * di0 * 0.000959553)
                   ≫= (fun aice0 : list R =>
                       match aice0 !! i with
                       | Some v0 => ret v0
                       | None => raise IndexError
                       end
                       ≫= (fun ai : R => setitem aice0 i (ai * db2np))))
          else ret aice)
         ≫= (fun aice0 : list R => ret (aliq', aice0)))) = raise IndexError
    \/ exists s',
       (match deni !! i with Some v0 => ret v0 | None => raise IndexError end
        ≫= (fun di : R =>
         (if Rltb 0 di
          then match deni !! i with
               | Some v0 => ret v0
               | None => raise IndexError
               end
               ≫= (fun di0 : R =>
                   setitem aice i (8.18645 / wave * di0 * 0.000959553)
                   ≫= (fun aice0 : list R =>
                       match aice0 !! i with
                       | Some v0 => ret v0
                       | None => raise IndexError
                       end
                       ≫= (fun ai : R => setitem aice0 i (ai * db2np))))
          else ret aice)
         ≫= (fun aice0 : list R => ret (aliq', aice0)))) = ret s').
  { intros aliq'. case_read deni i; [|now left].
    destruct (Rltb 0 v0); mnorm; [|right; eauto].
    case_store aice i; [|now left].
    rewrite list_lookup_insert_eq by exact Hlen. mnorm.
    rewrite setitem_in by (rewrite length_insert; exact Hlen).
    mnorm. right. eauto. }
  destruct (Rltb 0 v); mnorm; [|apply Hice].
  case_read tk i; [|now left].
  case_store aliq i; [apply Hice | now left].
Qed.

(** With a liquid-density profile no longer than the temperature profile
    (the two have the same length in use), [cld_abs_xxx] raises
    [IndexError] on every non-empty profile: its loop runs the positions
    [1 .. len(tk)]. *)
Theorem cld_abs_xxx_raises (constants : string -> R) (tk denl deni : list R)
    (frq : R) :
  (1 <= length tk)%nat -> (length denl <= length tk)%nat ->
  RTEquationRest.cld_abs_xxx constants tk denl deni frq = raise IndexError.
Proof.
  intros Hnl Hlen. unfold RTEquationRest.cld_abs_xxx.
  rewrite arange_last by exact Hnl.
  rewrite (for_range_raises_at IndexError).
  - reflexivity.
  - apply cld_abs_level_cases.
  - intros [aliq aice]. unfold RTEquationRest.cld_abs_level.
    now rewrite (getitem_none denl (length tk)) by now apply lookup_ge_None_2.
Qed.

Lemma cld_abs_xxx_raises_witness :
  RTEquationRest.cld_abs_xxx example_constants [280.0; 270.0] [0.1; 0.2]
    [0.0; 0.0] 22.235 = raise IndexError.
Proof.
  apply cld_abs_xxx_raises; simpl; lia.
Defined.

Lemma clr_abs_level_raises (p tk e : list R) (frq factor db2np : R)
    (i : nat) (s : list R * list R) :
  RTEquationRest.clr_abs_level p tk e frq factor db2np i s
  = match tk !! i, e !! i, p !! i with
    | Some _, Some _, Some _ => raise (NameError "h2o_rosen03_xxx")
    | _, _, _ => raise IndexError
    end.
Proof.
  unfold RTEquationRest.clr_abs_level, getitem. destruct s as [awet adry].
  case_read tk i; [|reflexivity].
  case_read e i; [|reflexivity].
  case_read p i; reflexivity.
Qed.

(** [clr_abs_xxx] returns for the empty profile only: on any other it
    raises at level 1, [NameError] for the routine [h2o_rosen03_xxx] that
    is bound nowhere once the three reads succeed, [IndexError] before. *)
Theorem clr_abs_xxx_raises (p0 : R) (p tk e : list R) (frq : R) :
  RTEquationRest.clr_abs_xxx [] tk e frq = ret ([], [])
  /\ RTEquationRest.clr_abs_xxx (p0 :: p) tk e frq
  = match tk !! 1%nat, e !! 1%nat, p !! 0%nat with
    | Some _, Some _, Some _ => raise (NameError "h2o_rosen03_xxx")
    | _, _, _ => raise IndexError
    end.
Proof.
  split; [reflexivity|].
  unfold RTEquationRest.clr_abs_xxx.
  rewrite arange_cons by (simpl; lia).
  rewrite for_range_cons, clr_abs_level_raises.
  change ((p0 :: p) !! 1%nat) with (p !! 0%nat).
  destruct (tk !! 1%nat), (e !! 1%nat), (p !! 0%nat); reflexivity.
Qed.

(** ** [vapor_xxx] *)

Lemma vapor_xxx_ice_unbound (constants : string -> R) (tk rh : list R) :
  RTEquationRest.vapor_xxx constants tk rh 1 = raise (NameError "find").
Proof. reflexivity. Qed.

Lemma pow10_pos (x : R) : 0 < RTEquationRest.pow10 x.
Proof. unfold RTEquationRest.pow10, Rpower. apply exp_pos. Qed.

Lemma broadcast_same (op : R -> R -> R) (a b : list R) :
  length a = length b -> broadcast op a b = ret (zip_with op a b).
Proof.
  intros H. unfold broadcast. now destruct (decide (length a = length b)).
Qed.

(** For a humidity profile as long as the temperature profile: with
    [ice = 1], the documented switch for saturation over ice, [vapor_xxx]
    raises [NameError], the branch calling [find], which is bound nowhere;
    with any other [ice] it returns two arrays of that length, where at
    each level with a positive temperature the vapour pressure has the
    sign of the humidity (it is 0 for a humidity of 0), and, for a constant
    [Rwatvap] other than 0, pressure and density satisfy the gas law
    [e = rho * (Rwatvap * 1e-5) * tk]. *)
Theorem vapor_xxx_gas_law (constants : string -> R) (tk rh : list R)
    (ice : Z) :
  length rh = length tk ->
  (ice = 1%Z ->
   RTEquationRest.vapor_xxx constants tk rh ice = raise (NameError "find"))
  /\ (ice <> 1%Z ->
      exists e rho,
        RTEquationRest.vapor_xxx constants tk rh ice = ret (e, rho)
        /\ length e = length tk /\ length rho = length tk
        /\ forall i t h, tk !! i = Some t -> rh !! i = Some h ->
             exists ei ri,
               e !! i = Some ei /\ rho !! i = Some ri
               /\ (0 < t ->
                   (0 <= h -> 0 <= ei) /\ (h <= 0 -> ei <= 0)
                   /\ (constants "Rwatvap"%string <> 0 ->
                       ri * (constants "Rwatvap"%string * 1e-05 * t)
                       = ei))).
Proof.
  intros Hlen. split; [intros ->; apply vapor_xxx_ice_unbound|].
  intros Hice. unfold RTEquationRest.vapor_xxx.
  destruct (decide (ice = 1%Z)) as [|_]; [contradiction|].
  rewrite bind_ret.
  rewrite broadcast_same by (rewrite !length_fmap; exact Hlen).
  rewrite bind_ret.
  rewrite broadcast_same
    by (rewrite length_zip_with, !length_fmap, Hlen; lia).
  rewrite bind_ret. do 2 eexists. split; [reflexivity|].
  split; [rewrite length_zip_with, !length_fmap, Hlen; lia|].
  split; [rewrite !length_zip_with, !length_fmap, Hlen; lia|].
  intros i t h Ht Hh.
  exists (h * RTEquationRest.pow10 (RTEquationRest.log_es_water t)).
  exists (h * RTEquationRest.pow10 (RTEquationRest.log_es_water t)
          / (constants "Rwatvap"%string * 1e-05 * t)).
  pose proof (pow10_pos (RTEquationRest.log_es_water t)) as Hpos.
  assert (He : zip_with Rmult rh
                 (RTEquationRest.pow10 <$>
                    (RTEquationRest.log_es_water <$> tk)) !! i
               = Some (h * RTEquationRest.pow10
                             (RTEquationRest.log_es_water t))).
  { rewrite lookup_zip_with, Hh, !list_lookup_fmap, Ht. reflexivity. }
  split; [exact He|]. split.
  { rewrite lookup_zip_with, He, list_lookup_fmap, Ht. reflexivity. }
  set (P := RTEquationRest.pow10 (RTEquationRest.log_es_water t)) in *.
  intros Htpos.
  split; [intros; apply Rmult_le_pos; lra|].
  split; [intros; assert (0 <= (- h) * P) by (apply Rmult_le_pos; lra); lra|].
  intros Hnz. field. split; [lra | exact Hnz].
Qed.

Lemma vapor_xxx_gas_law_witness :
  RTEquationRest.vapor_xxx example_constants [300.0; 280.0] [0.5; 0.0] 1
  = raise (NameError "find")
  /\ exists e rho,
       RTEquationRest.vapor_xxx example_constants [300.0; 280.0] [0.5; 0.0] 0
       = ret (e, rho)
       /\ length e = length [300.0; 280.0]
       /\ length rho = length [300.0; 280.0]
       /\ forall i t h, [300.0; 280.0] !! i = Some t ->
            [0.5; 0.0] !! i = Some h ->
            exists ei ri,
              e !! i = Some ei /\ rho !! i = Some ri
              /\ (0 < t ->
                  (0 <= h -> 0 <= ei) /\ (h <= 0 -> ei <= 0)
                  /\ (example_constants "Rwatvap"%string <> 0 ->
                      ri * (example_constants "Rwatvap" * 1e-05 * t) = ei)).
Proof.
  split.
  - destruct (vapor_xxx_gas_law example_constants [300.0; 280.0] [0.5; 0.0] 1)
      as [H _]; [reflexivity|].
    apply H. reflexivity.
  - destruct (vapor_xxx_gas_law example_constants [300.0; 280.0] [0.5; 0.0] 0)
      as [_ H]; [reflexivity|].
    apply H. discriminate.
Defined.

(** ** [ab_liq] and [liquid_water_absorption] *)

(** One relaxation term [A / (1 + i x)]: a real part that is not negative
    and an imaginary part that is not positive. *)
Lemma debye_term (A x : R) :
  0 <= A -> 0 <= x ->
  0 <= Cplx.real (Cplx.div (Cplx.of_real A) (Cplx.mk 1.0 x))
  /\ Cplx.imag (Cplx.div (Cplx.of_real A) (Cplx.mk 1.0 x)) <= 0.
Proof.
  intros HA Hx. unfold Cplx.div, Cplx.of_real, Cplx.mk, Cplx.real, Cplx.imag.
  cbn [fst snd].
  assert (Hd : 0 < 1.0 * 1.0 + x * x) by nra.
  assert (Hinv : 0 < / (1.0 * 1.0 + x * x)) by now apply Rinv_0_lt_compat.
  assert (HAx : 0 <= A * x) by now apply Rmult_le_pos.
  unfold Rdiv. split.
  - apply Rmult_le_pos; lra.
  - assert (0 <= (A * x) * / (1.0 * 1.0 + x * x)) by (apply Rmult_le_pos; lra).
    lra.
Qed.

(** The imaginary part of [(eps - 1) / (eps + 2)]. *)
Lemma ratio_imag (re im : R) :
  0 < re + 2 ->
  Cplx.imag (Cplx.div (Cplx.sub (re, im) (Cplx.of_real 1.0))
               (RTEquationRest.cadd (re, im) (Cplx.of_real 2.0)))
  = 3 * im / ((re + 2) * (re + 2) + im * im).
Proof.
  intros H. unfold Cplx.div, Cplx.sub, RTEquationRest.cadd, Cplx.of_real,
    Cplx.real, Cplx.imag. cbn [fst snd].
  replace 2.0 with 2 by lra. replace 1.0 with 1 by lra.
  field. nra.
Qed.

Lemma relaxation_frequency_pos (theta1 : R) :
  0 < (316.0 * theta1 + 146.4) * theta1 + 20.2.
Proof.
  pose proof (Rle_0_sqr (632 * theta1 + 146.4)) as H. unfold Rsqr in H.
  nra.
Qed.

(** Up to 396 K the permittivity has a positive real part and an
    imaginary part that is not positive. *)
Lemma liquid_eps_sign (freq temp : R) :
  0 <= freq -> 0 < temp -> temp <= 396 ->
  0 < Cplx.real (RTEquationRest.liquid_eps freq temp)
  /\ Cplx.imag (RTEquationRest.liquid_eps freq temp) <= 0.
Proof.
  intros Hf Ht Hmax. unfold RTEquationRest.liquid_eps.
  set (theta1 := 1.0 - 300.0 / temp).
  assert (Hth : theta1 <= 1 - 300 / 396).
  { unfold theta1.
    assert (/ 396 <= / temp) by (apply Rinv_le_contravar; lra).
    unfold Rdiv. lra. }
  pose proof (relaxation_frequency_pos theta1) as Hfp.
  set (fp := (316.0 * theta1 + 146.4) * theta1 + 20.2) in *.
  destruct (debye_term (77.66 - 103.3 * theta1
                        - 0.0671 * (77.66 - 103.3 * theta1)) (freq / fp))
    as [Hr1 Hi1]; [lra | apply Rle_mult_inv_pos; lra |].
  destruct (debye_term (0.0671 * (77.66 - 103.3 * theta1) - 3.52)
              (freq / (39.8 * fp)))
    as [Hr2 Hi2]; [lra | apply Rle_mult_inv_pos; lra |].
  cbv zeta.
  match goal with
  | |- 0 < Cplx.real (RTEquationRest.cadd (RTEquationRest.cadd ?z1 ?z2) ?c)
       /\ _ =>
      change (0 < Cplx.real z1 + Cplx.real z2 + Cplx.real c
              /\ Cplx.imag z1 + Cplx.imag z2 + Cplx.imag c <= 0)
  end.
  unfold Cplx.of_real at 3 6. unfold Cplx.real at 3, Cplx.imag at 3.
  cbn [fst snd]. lra.
Qed.

Lemma ratio_imag_nonpos (z : Cplx.C) :
  0 < Cplx.real z -> Cplx.imag z <= 0 ->
  Cplx.imag (Cplx.div (Cplx.sub z (Cplx.of_real 1.0))
               (RTEquationRest.cadd z (Cplx.of_real 2.0))) <= 0.
Proof.
  destruct z as [re im]. unfold Cplx.real at 1, Cplx.imag at 1.
  cbn [fst snd]. intros Hre Him.
  rewrite ratio_imag by lra.
  assert (Hd : 0 < (re + 2) * (re + 2) + im * im) by nra.
  assert (0 <= (- (3 * im)) / ((re + 2) * (re + 2) + im * im))
    by (apply Rle_mult_inv_pos; lra).
  unfold Rdiv in *. lra.
Qed.

(** [ab_liq] is 0 for a water content that is not positive, and for a
    frequency that is not negative and a temperature above 0 K and up to
    396 K it is never negative. *)
Theorem ab_liq_nonneg (water freq temp : R) :
  0 <= freq -> 0 < temp -> temp <= 396 ->
  0 <= RTEquationRest.ab_liq water freq temp
  /\ (water <= 0 -> RTEquationRest.ab_liq water freq temp = 0).
Proof.
  intros Hf Ht Hmax. unfold RTEquationRest.ab_liq.
  destruct (Rle_dec water 0) as [Hw|Hw].
  - rewrite (Rleb_true _ _ Hw). split; [lra | reflexivity].
  - rewrite (Rleb_false _ _ Hw). split; [|intros; lra].
    destruct (liquid_eps_sign freq temp Hf Ht Hmax) as [Hre Him].
    pose proof (ratio_imag_nonpos _ Hre Him) as Hi.
    cbv zeta.
    set (im := Cplx.imag (Cplx.div _ _)) in *.
    assert (0 <= (- im) * freq) by (apply Rmult_le_pos; lra).
    assert (0 <= (- im) * freq * water) by (apply Rmult_le_pos; lra).
    lra.
Qed.

Lemma ab_liq_nonneg_witness :
  0 <= RTEquationRest.ab_liq 0.2 22.235 280.0
  /\ (0.2 <= 0 -> RTEquationRest.ab_liq 0.2 22.235 280.0 = 0).
Proof.
  apply (ab_liq_nonneg 0.2 22.235 280.0); lra.
Defined.

Lemma model_in_false (model : string) (names : list string) :
  ~ In model names -> AbsModel.model_in model names = false.
Proof.
  intros H. destruct (AbsModel.model_in model names) eqn:E; [|reflexivity].
  apply model_in_In in E. contradiction.
Qed.

(** For the models [rose03] and [rose98], [liquid_water_absorption] of
    [absmodel.py] and [ab_liq] of [rte.py] compute the same number. *)
Theorem liquid_water_absorption_is_ab_liq (dilec12 : R -> R -> Cplx.C)
    (model : string) (water freq temp : R) :
  In model ["rose03"; "rose98"]%string ->
  AbsModelRest.liquid_water_absorption dilec12 model water freq temp
  = ret (RTEquationRest.ab_liq water freq temp).
Proof.
  intros Hin. apply model_in_In in Hin.
  unfold AbsModelRest.liquid_water_absorption, RTEquationRest.ab_liq.
  rewrite Hin. destruct (Rleb water 0); [reflexivity|].
  now rewrite bind_ret.
Qed.

Lemma liquid_water_absorption_is_ab_liq_witness :
  AbsModelRest.liquid_water_absorption no_dilec12 "rose98" 0.2 22.235 280.0
  = ret (RTEquationRest.ab_liq 0.2 22.235 280.0).
Proof.
  apply liquid_water_absorption_is_ab_liq. simpl. tauto.
Defined.

(** [liquid_water_absorption] returns 0 for a water content that is not
    positive, whatever the model name; for a positive one (and a positive
    temperature) it returns for the six names it tests for and raises
    [ValueError] for every other name, among them [rose18], [rose20] and
    [rose20sd], which the other routines recognize. *)
Theorem liquid_water_absorption_models (dilec12 : R -> R -> Cplx.C)
    (model : string) (water freq temp : R) :
  (water <= 0 ->
   AbsModelRest.liquid_water_absorption dilec12 model water freq temp = ret 0)
  /\ (0 < water -> 0 < temp -> In model liquid_models ->
      exists a,
        AbsModelRest.liquid_water_absorption dilec12 model water freq temp
        = ret a)
  /\ (0 < water -> ~ In model liquid_models ->
      AbsModelRest.liquid_water_absorption dilec12 model water freq temp
      = raise (ValueError
          ("[AbsLiq] No model available with this name: " ++ model
           ++ " . Sorry...")%string))
  /\ Forall (fun m => In m recognized /\ ~ In m liquid_models)
       ["rose18"; "rose20"; "rose20sd"]%string.
Proof.
  unfold AbsModelRest.liquid_water_absorption.
  split; [|split; [|split]].
  - intros Hw. now rewrite (Rleb_true _ _ Hw).
  - intros Hw _ Hin. rewrite Rleb_false by lra.
    unfold liquid_models in Hin. simpl in Hin.
    destruct Hin as [<-|[<-|[<-|[<-|[<-|[<-|[]]]]]]]; eval_tests;
      rewrite bind_ret; eexists; reflexivity.
  - intros Hw Hout. rewrite Rleb_false by lra.
    rewrite !model_in_false; [reflexivity| |];
      intros Hin; apply Hout; unfold liquid_models; simpl in *; tauto.
  - repeat (apply Forall_cons; split;
              [split; [unfold recognized; simpl; tauto
                      |unfold liquid_models; simpl; intros H;
                       repeat (destruct H as [H|H]; [discriminate H|]);
                       exact H]|]).
    apply Forall_nil_2.
Qed.

Lemma liquid_water_absorption_models_witness :
  (0.2 <= 0 ->
   AbsModelRest.liquid_water_absorption no_dilec12 "rose20" 0.2 22.235 280.0
   = ret 0)
  /\ (0 < 0.2 -> 0 < 280.0 -> In "rose20"%string liquid_models ->
      exists a,
        AbsModelRest.liquid_water_absorption no_dilec12 "rose20" 0.2 22.235
          280.0 = ret a)
  /\ (0 < 0.2 -> ~ In "rose20"%string liquid_models ->
      AbsModelRest.liquid_water_absorption no_dilec12 "rose20" 0.2 22.235 280.0
      = raise (ValueError
          ("[AbsLiq] No model available with this name: " ++ "rose20"
           ++ " . Sorry...")%string))
  /\ Forall (fun m => In m recognized /\ ~ In m liquid_models)
       ["rose18"; "rose20"; "rose20sd"]%string.
Proof.
  exact (liquid_water_absorption_models no_dilec12 "rose20" 0.2 22.235 280.0).
Defined.

(** ** [n2_absorption] *)

Lemma pypow_pos (x y : R) : 0 < AbsModel.pypow x y.
Proof. unfold AbsModel.pypow, Rpower. apply exp_pos. Qed.

Lemma n2_term_nonneg (l fdepen p f pw n : R) :
  0 <= l -> 0 <= fdepen -> 0 < pw -> 0 <= n ->
  0 <= n * (l * fdepen * p * p * f * f * pw).
Proof.
  intros Hl Hfd Hpw Hn.
  assert (0 <= p * p) by nra. assert (0 <= f * f) by nra.
  assert (0 <= l * fdepen) by now apply Rmult_le_pos.
  assert (0 <= l * fdepen * (p * p)) by now apply Rmult_le_pos.
  assert (0 <= l * fdepen * (p * p) * (f * f)) by now apply Rmult_le_pos.
  assert (0 <= l * fdepen * (p * p) * (f * f) * pw)
    by (apply Rmult_le_pos; lra).
  replace (l * fdepen * p * p * f * f * pw)
    with (l * fdepen * (p * p) * (f * f) * pw) by ring.
  now apply Rmult_le_pos.
Qed.

Lemma n2_frequency_factor_pos (f : R) :
  0 <= 0.5 + 0.5 / (1.0 + (f / 450.0) ^ 2).
Proof.
  assert (0 <= (f / 450.0) ^ 2) by (simpl; nra).
  assert (0 < / (1.0 + (f / 450.0) ^ 2)) by (apply Rinv_0_lt_compat; lra).
  unfold Rdiv at 1. lra.
Qed.

(** For a positive temperature, [n2_absorption] returns for the nine
    recognized model names, and the absorption it returns is never
    negative; for every other name it raises [ValueError]. *)
Theorem n2_absorption_models (model : string) (t p f : R) :
  0 < t ->
  (In model recognized ->
   exists a, AbsModel.n2_absorption model t p f = ret a /\ 0 <= a)
  /\ (~ In model recognized ->
      exists msg,
        AbsModel.n2_absorption model t p f = raise (ValueError msg)).
Proof.
  intros _. split.
  - intros Hin. unfold recognized in Hin. simpl in Hin.
    pose proof (n2_frequency_factor_pos f) as Hfd.
    pose proof (pypow_pos (300.0 / t)) as Hpw.
    unfold AbsModel.n2_absorption.
    destruct Hin as [<-|[<-|[<-|[<-|[<-|[<-|[<-|[<-|[<-|[]]]]]]]]]];
      eval_tests; rewrite bind_ret; eexists; (split; [reflexivity|]);
      apply n2_term_nonneg; try lra; apply Hpw.
  - intros Hout. unfold AbsModel.n2_absorption.
    rewrite !model_in_false;
      [|intros Hin; apply Hout; unfold recognized; simpl in *; tauto ..].
    assert (Hne : model <> "rose03"%string).
    { intros ->. apply Hout. unfold recognized. simpl. tauto. }
    apply String.eqb_neq in Hne. rewrite Hne. eexists. reflexivity.
Qed.

Lemma n2_absorption_models_witness :
  (exists a, AbsModel.n2_absorption "rose19" 280.0 900.0 22.235 = ret a
             /\ 0 <= a)
  /\ (exists msg,
        AbsModel.n2_absorption "rose21" 280.0 900.0 22.235
        = raise (ValueError msg)).
Proof.
  split.
  - destruct (n2_absorption_models "rose19" 280.0 900.0 22.235) as [H _];
      [lra|].
    apply H. unfold recognized. simpl. tauto.
  - destruct (n2_absorption_models "rose21" 280.0 900.0 22.235) as [_ H];
      [lra|].
    apply H. unfold recognized. simpl. intros Hin.
    repeat (destruct Hin as [Hin|Hin]; [discriminate Hin|]). exact Hin.
Defined.

(** ** [o2abs_rosen19] and [o2abs_rosen18] *)

Lemma o2_line_else_cases (ll : AbsModel.o2_lines) (freq th1 den pe2 : R)
    (k : nat) (summ : R) :
  AbsModel.o2_line_else ll freq th1 den pe2 k summ = raise IndexError
  \/ exists r, AbsModel.o2_line_else ll freq th1 den pe2 k summ = ret r.
Proof.
  unfold AbsModel.o2_line_else, getitem.
  case_read (AbsModel.w300 ll) k; [|now left].
  case_read (AbsModel.y0 ll) k; [|now left].
  case_read (AbsModel.y1 ll) k; [|now left].
  case_read (AbsModel.dnu0 ll) k; [|now left].
  case_read (AbsModel.dnu1 ll) k; [|now left].
  case_read (AbsModel.s300 ll) k; [|now left].
  case_read (AbsModel.be ll) k; [|now left].
  case_read (AbsModel.f ll) k; [|now left].
  case_read (AbsModel.g0 ll) k; [|now left].
  case_read (AbsModel.g1 ll) k; [|now left].
  right. eauto.
Qed.

Lemma Rmax_twice (x : R) : Rmax (Rmax x 0.0) 0.0 = Rmax x 0.0.
Proof. apply Rmax_left. apply Rmax_r. Qed.

(** In [o2abs_rosen19] the model [rose20] differs from [rose19] by the
    intensity factor alone: on the same line list and input, with
    [vx > 0], both raise [IndexError], or both return, with the same
    continuum term and a resonant term that is 1.004 times larger for
    [rose20]. *)
Theorem o2abs_rosen19_rose20_factor (ll : AbsModel.o2_lines)
    (pdrykpa vx ekpa frq : R) :
  0 < vx ->
  (AbsModel.o2abs_rosen19 ll "rose19" pdrykpa vx ekpa frq = raise IndexError
   /\ AbsModel.o2abs_rosen19 ll "rose20" pdrykpa vx ekpa frq
      = raise IndexError)
  \/ (exists npp ncpp,
        AbsModel.o2abs_rosen19 ll "rose19" pdrykpa vx ekpa frq
        = ret (npp, ncpp)
        /\ AbsModel.o2abs_rosen19 ll "rose20" pdrykpa vx ekpa frq
           = ret (1.004 * npp, ncpp)).
Proof.
  intros _.
  unfold AbsModel.o2abs_rosen19, AbsModel.o2_line_sum, AbsModel.o2_clamp.
  eval_tests. cbn [negb].
  match goal with
  | |- context [for_range ?xs (AbsModel.o2_line_else ll ?a ?b ?c ?d) ?s0] =>
      destruct (for_range_ret_or_raise IndexError xs
                  (AbsModel.o2_line_else ll a b c d)
                  (o2_line_else_cases ll a b c d) s0) as [H|[r H]];
      rewrite !H
  end.
  - left. split; reflexivity.
  - right. rewrite !bind_ret. do 2 eexists. split; [reflexivity|].
    f_equal. f_equal. rewrite Rmax_twice. unfold Rdiv. ring.
Qed.

Lemma o2abs_rosen19_rose20_factor_witness :
  (AbsModel.o2abs_rosen19 o2_one_line "rose19" 100.0 1.0 1.0 50.0
   = raise IndexError
   /\ AbsModel.o2abs_rosen19 o2_one_line "rose20" 100.0 1.0 1.0 50.0
      = raise IndexError)
  \/ (exists npp ncpp,
        AbsModel.o2abs_rosen19 o2_one_line "rose19" 100.0 1.0 1.0 50.0
        = ret (npp, ncpp)
        /\ AbsModel.o2abs_rosen19 o2_one_line "rose20" 100.0 1.0 1.0 50.0
           = ret (1.004 * npp, ncpp)).
Proof.
  apply (o2abs_rosen19_rose20_factor o2_one_line 100.0 1.0 1.0 50.0). lra.
Defined.

Lemma o2_line_18_total (ll : AbsModel.o2_lines) (freq th1 den : R)
    (k : nat) (summ : R) :
  o2_columns_ok ll -> (k < length (AbsModel.f ll))%nat ->
  exists r, AbsModelRest.o2_line_18 ll freq th1 den k summ = ret r.
Proof.
  intros Hcols Hk. pose proof (o2_column_lengths ll Hcols) as Hlen.
  unfold AbsModelRest.o2_line_18.
  repeat read_inside; eexists; reflexivity.
Qed.

Lemma Rmax_scaled (x k : R) : 0 < k -> Rmax x 0.0 / k = Rmax (x / k) 0.0.
Proof.
  intros Hk. assert (0 < / k) by now apply Rinv_0_lt_compat.
  unfold Rdiv. rewrite (Rmult_comm (Rmax x 0.0)), (Rmult_comm x).
  rewrite <- RmaxRmult by lra. f_equal. lra.
Qed.

(** [o2abs_rosen18] does not read the model selector; with lock-step
    columns, [vx > 0] and a positive frequency it returns, and its
    resonant term is never negative.  That term includes the non-resonant
    one: with an empty line list it is the continuum term itself, clamped
    at 0. *)
Theorem o2abs_rosen18_clamped (ll : AbsModel.o2_lines)
    (pdrykpa vx ekpa frq : R) :
  o2_columns_ok ll -> 0 < vx -> 0 < frq ->
  exists npp ncpp,
    AbsModelRest.o2abs_rosen18 ll pdrykpa vx ekpa frq = ret (npp, ncpp)
    /\ 0 <= npp
    /\ (AbsModel.f ll = [] -> npp = Rmax ncpp 0).
Proof.
  intros Hcols _ Hf. unfold AbsModelRest.o2abs_rosen18.
  match goal with
  | |- context [for_range ?xs ?body ?s0] =>
      destruct (for_range_total xs body) with (s := s0) as [r Hr];
      [ intros i s Hi; apply list_elem_of_In, in_seq in Hi;
        apply o2_line_18_total; [exact Hcols | lia] | ]
  end.
  rewrite Hr, bind_ret. do 2 eexists. split; [reflexivity|]. split.
  - apply scaled_nonneg; [|exact Hf].
    match goal with |- 0 <= Rmax ?y 0.0 => pose proof (Rmax_r y 0.0) end. lra.
  - intros Hempty. rewrite Hempty in Hr. simpl in Hr.
    inversion Hr as [Hs]. pose proof db2np_pos as Hdb.
    rewrite !Rmax_scaled by lra. f_equal. lra.
Qed.

Lemma o2abs_rosen18_clamped_witness :
  exists npp ncpp,
    AbsModelRest.o2abs_rosen18 o2_one_line 100.0 1.0 1.0 50.0
    = ret (npp, ncpp)
    /\ 0 <= npp
    /\ (AbsModel.f o2_one_line = [] -> npp = Rmax ncpp 0).
Proof.
  apply (o2abs_rosen18_clamped o2_one_line 100.0 1.0 1.0 50.0);
    [exact o2_one_line_ok | lra | lra].
Defined.

(** ** [h2o_rosen19_sd]: the continuum term *)

Lemma vapour_pressure_bounds (vx ekpa pdrykpa : R) :
  0 < vx -> 0 < ekpa -> 0 <= pdrykpa ->
  (0 < ekpa * 10.0 / (0.01 * 8.31451 / 18.01528 * (300.0 / vx))
       * (300.0 / vx) / 216.68
   /\ 0 <= (pdrykpa + ekpa) * 10.0
           - ekpa * 10.0 / (0.01 * 8.31451 / 18.01528 * (300.0 / vx))
             * (300.0 / vx) / 216.68)
  /\ (0 < ekpa * 10.0 / (0.01 * 8.31451 / 18.01528 * (300.0 / vx))
          * (300.0 / vx) / 217.0
      /\ 0 <= (pdrykpa + ekpa) * 10.0
              - ekpa * 10.0 / (0.01 * 8.31451 / 18.01528 * (300.0 / vx))
                * (300.0 / vx) / 217.0).
Proof.
  intros Hv He Hp.
  replace (ekpa * 10.0 / (0.01 * 8.31451 / 18.01528 * (300.0 / vx))
           * (300.0 / vx) / 216.68)
    with (ekpa * (10.0 / (0.01 * 8.31451 / 18.01528 * 216.68)))
    by (field; lra).
  replace (ekpa * 10.0 / (0.01 * 8.31451 / 18.01528 * (300.0 / vx))
           * (300.0 / vx) / 217.0)
    with (ekpa * (10.0 / (0.01 * 8.31451 / 18.01528 * 217.0)))
    by (field; lra).
  repeat split; lra.
Qed.

Ltac nonneg :=
  repeat match goal with
  | |- 0 <= _ => assumption
  | |- 0 <= AbsModel.pypow _ _ => left; apply pypow_pos
  | |- 0 <= _ ^ _ => apply pow_le
  | |- 0 <= _ * _ => apply Rmult_le_pos
  | |- 0 <= _ + _ => apply Rplus_le_le_0_compat
  | |- 0 <= _ => lra
  end.

(** For a recognized model and a line list with lock-step columns and
    continuum coefficients that are not negative, a positive vapour
    pressure, a dry pressure that is not negative and positive [vx] and
    frequency make [h2o_rosen19_sd] return a pair whose continuum term is
    not negative. *)
Theorem h2o_rosen19_sd_continuum_nonneg (dcerror : R -> R -> Cplx.C)
    (ll : AbsModel.h2o_lines) (model : string) (pdrykpa vx ekpa frq : R) :
  h2o_columns_ok ll -> In model recognized ->
  0 <= AbsModel.reftcon ll -> 0 <= AbsModel.cf ll -> 0 <= AbsModel.cs ll ->
  0 < vx -> 0 < ekpa -> 0 <= pdrykpa -> 0 < frq ->
  exists npp ncpp,
    AbsModel.h2o_rosen19_sd dcerror ll model pdrykpa vx ekpa frq
    = ret (Some (npp, ncpp))
    /\ 0 <= ncpp.
Proof.
  intros Hcols Hin Hre Hcf Hcs Hv He Hp Hf.
  destruct (vapour_pressure_bounds vx ekpa pdrykpa Hv He Hp)
    as [[Hpv1 Hpda1] [Hpv2 Hpda2]].
  assert (Hti : 0 <= AbsModel.reftcon ll / (300.0 / vx)).
  { apply Rle_mult_inv_pos; [exact Hre|]. apply Rdiv_lt_0_compat; lra. }
  apply Rlt_le in Hpv1, Hpv2.
  unfold AbsModel.h2o_rosen19_sd.
  rewrite (density_guard _ (vapour_density_sign vx ekpa Hv
             (Rgt_not_eq _ _ He))).
  unfold recognized in Hin. simpl in Hin.
  destruct Hin as [<-|[<-|[<-|[<-|[<-|[<-|[<-|[<-|[<-|[]]]]]]]]]];
    eval_tests;
    match goal with
    | |- context [for_range ?xs ?body ?s0] =>
        let r := fresh "r" in
        let Hr := fresh "Hr" in
        destruct (for_range_total xs body) with (s := s0) as [r Hr];
        [ intros i s Hi; apply list_elem_of_In, in_seq in Hi;
          lazymatch body with
          | AbsModel.h2o_line_sd _ _ _ _ _ _ _ _ _ =>
              apply h2o_line_sd_total
          | AbsModel.h2o_line_old _ _ _ _ _ _ _ => apply h2o_line_old_total
          | AbsModel.h2o_line_new _ _ _ _ _ _ _ _ => apply h2o_line_new_total
          end;
          solve [exact Hcols | lia]
        | rewrite Hr, !bind_ret ]
    end;
    (do 2 eexists; split; [reflexivity|]);
    (apply scaled_nonneg; [|exact Hf]);
    nonneg.
Qed.

Lemma h2o_rosen19_sd_continuum_nonneg_witness :
  exists npp ncpp,
    AbsModel.h2o_rosen19_sd no_dcerror h2o_one_line "rose19" 100.0 1.0 1.0
      22.235 = ret (Some (npp, ncpp))
    /\ 0 <= ncpp.
Proof.
  apply (h2o_rosen19_sd_continuum_nonneg no_dcerror h2o_one_line "rose19"
           100.0 1.0 1.0 22.235);
    [exact h2o_one_line_ok | unfold recognized; simpl; tauto
    | simpl; lra | simpl; lra | simpl; lra | lra | lra | lra | lra].
Defined.

(** ** Model names that share their formulas *)

(** Some model names are treated alike: in [o2abs_rosen19], [rose18] as
    [rose17], [rose19sd] as [rose19] and [rose20sd] as [rose20]; in
    [h2o_rosen19_sd], [rose20] as [rose19]; in [n2_absorption],
    [rose20sd] as [rose20].  Whatever differs between them comes from the
    line list handed in. *)
Theorem model_names_alike :
  (forall (ll : AbsModel.o2_lines) (pdrykpa vx ekpa frq : R),
      AbsModel.o2abs_rosen19 ll "rose18" pdrykpa vx ekpa frq
      = AbsModel.o2abs_rosen19 ll "rose17" pdrykpa vx ekpa frq
      /\ AbsModel.o2abs_rosen19 ll "rose19sd" pdrykpa vx ekpa frq
         = AbsModel.o2abs_rosen19 ll "rose19" pdrykpa vx ekpa frq
      /\ AbsModel.o2abs_rosen19 ll "rose20sd" pdrykpa vx ekpa frq
         = AbsModel.o2abs_rosen19 ll "rose20" pdrykpa vx ekpa frq)
  /\ (forall (dcerror : R -> R -> Cplx.C) (ll : AbsModel.h2o_lines)
        (pdrykpa vx ekpa frq : R),
        AbsModel.h2o_rosen19_sd dcerror ll "rose20" pdrykpa vx ekpa frq
        = AbsModel.h2o_rosen19_sd dcerror ll "rose19" pdrykpa vx ekpa frq)
  /\ (forall t p f : R,
        AbsModel.n2_absorption "rose20sd" t p f
        = AbsModel.n2_absorption "rose20" t p f).
Proof.
  split; [|split].
  - intros ll pdrykpa vx ekpa frq.
    unfold AbsModel.o2abs_rosen19, AbsModel.o2_line_sum, AbsModel.o2_clamp,
      AbsModel.n2_absorption.
    eval_tests. repeat split; reflexivity.
  - intros dcerror ll pdrykpa vx ekpa frq.
    unfold AbsModel.h2o_rosen19_sd. eval_tests. reflexivity.
  - intros t p f. reflexivity.
Qed.

(** ** The property [model] of [AbsModel] *)

(** The setter of [model] takes every non-empty string, whether or not it
    names a model, and the getter then returns that string; the empty
    string and a value that is not a string raise [ValueError]. *)
Theorem set_model_accepts_any_name (self : AbsModelRest.abs_model)
    (s : string) :
  s <> ""%string ->
  (exists self',
      AbsModelRest.set_model self (AbsModelRest.PyStr s) = ret self'
      /\ AbsModelRest.get_model self' = s)
  /\ AbsModelRest.set_model self (AbsModelRest.PyStr "")
     = raise (ValueError "Please enter a valid absorption model")
  /\ AbsModelRest.set_model self AbsModelRest.PyOther
     = raise (ValueError "Please enter a valid absorption model").
Proof.
  intros Hs. repeat split.
  unfold AbsModelRest.set_model. apply String.eqb_neq in Hs. rewrite Hs.
  eexists. split; reflexivity.
Qed.

Lemma set_model_accepts_any_name_witness :
  (exists self',
      AbsModelRest.set_model AbsModelRest.init
        (AbsModelRest.PyStr "not_a_model") = ret self'
      /\ AbsModelRest.get_model self' = "not_a_model"%string)
  /\ AbsModelRest.set_model AbsModelRest.init (AbsModelRest.PyStr "")
     = raise (ValueError "Please enter a valid absorption model")
  /\ AbsModelRest.set_model AbsModelRest.init AbsModelRest.PyOther
     = raise (ValueError "Please enter a valid absorption model").
Proof.
  apply (set_model_accepts_any_name AbsModelRest.init "not_a_model").
  discriminate.
Defined.
